(** * Sentry Academy: the AI tool-calling pipeline

    A shallow embedding of [apps/server/src/modules/ai/routes.ts] (the
    course-creation tool, the [/ai/generate-course] and [/ai/stats] routes) and
    of the chat module's read-only catalog tools ([getAllCourses],
    [searchCourses]).

    Conventions of the model.
    - A JavaScript string is a [string]: a sequence of code units below 256.
      Case folding is the ASCII one; on Latin-1 input this gives the slug the
      source computes, since the slug drops every code unit outside
      [a-z0-9-] after folding.
    - [await] is sequencing: every effectful function is a state-and-exception
      computation [Eff] over a [World].
    - The database is a deterministic store of ordered tables.  What the schema
      ([db/schema.ts], not among the sources at hand) decides, namely which
      inserts are accepted and the column defaults, is an [Env] parameter of
      the world.  Infrastructure faults of reads are outside the model.
    - [Math.random()] is a double in [0,1), modelled as [k / 2^53] with [k]
      drawn from the world's entropy; [createId()] draws from the world's
      identifier source.
    - A [limit] argument is a JavaScript number; the model takes it
      integral. *)

From Stdlib Require Import List String Ascii ZArith NArith Arith Bool Lia.
From Stdlib Require Import Numbers.DecimalString.
From Stdlib Require Import Permutation.
Import ListNotations.
Set Warnings "-register-all".
Open Scope string_scope.
Open Scope list_scope.

(** ** JavaScript strings *)

Module Js.

Definition code (c : ascii) : nat := nat_of_ascii c.

(** [\s] restricted to code units below 256: TAB, LF, VT, FF, CR, SPACE, NBSP. *)
Definition is_space (c : ascii) : bool :=
  let n := code c in
  ((9 <=? n) && (n <=? 13) || (n =? 32) || (n =? 160))%nat.

Definition is_upper (c : ascii) : bool :=
  let n := code c in ((65 <=? n) && (n <=? 90))%nat.

Definition lower_char (c : ascii) : ascii :=
  if is_upper c then ascii_of_nat (code c + 32) else c.

(** [s.toLowerCase()] *)
Fixpoint toLowerCase (s : string) : string :=
  match s with
  | EmptyString => EmptyString
  | String c r => String (lower_char c) (toLowerCase r)
  end.

(** [s.replace(/\s+/g, '-')]: every maximal run of white space becomes one
    hyphen.  [in_run] tells that the previous code unit was white space. *)
Fixpoint replace_ws_runs (in_run : bool) (s : string) : string :=
  match s with
  | EmptyString => EmptyString
  | String c r =>
      if is_space c
      then (if in_run then replace_ws_runs true r
            else String "-" (replace_ws_runs true r))
      else String c (replace_ws_runs false r)
  end.

(** The class [a-z0-9-]. *)
Definition is_slug_char (c : ascii) : bool :=
  let n := code c in
  ((97 <=? n) && (n <=? 122) || (48 <=? n) && (n <=? 57) || (n =? 45))%nat.

(** [s.replace(/[^a-z0-9-]/g, '')] *)
Fixpoint keep_slug_chars (s : string) : string :=
  match s with
  | EmptyString => EmptyString
  | String c r =>
      if is_slug_char c then String c (keep_slug_chars r) else keep_slug_chars r
  end.

(** [s.slice(-n)]: the last [n] code units, the whole string when it is
    shorter. *)
Definition slice_last (n : nat) (s : string) : string :=
  substring (String.length s - n) n s.

(** [s.substring(0, n)] is [substring 0 n s]. *)

Fixpoint drop_leading_ws (s : string) : string :=
  match s with
  | EmptyString => EmptyString
  | String c r => if is_space c then drop_leading_ws r else s
  end.

Fixpoint rev_onto (s acc : string) : string :=
  match s with
  | EmptyString => acc
  | String c r => rev_onto r (String c acc)
  end.

Definition reverse (s : string) : string := rev_onto s EmptyString.

(** [s.trim()] *)
Definition trim (s : string) : string :=
  reverse (drop_leading_ws (reverse (drop_leading_ws s))).

(** Template interpolation of a non-negative integer. *)
Definition of_nat (n : nat) : string := NilEmpty.string_of_uint (Nat.to_uint n).

(** The double-quote character of the message templates. *)
Definition dquote : string := String (ascii_of_nat 34) EmptyString.

(** Truthiness of a string: the empty string is falsy. *)
Definition truthy (s : string) : bool :=
  match s with EmptyString => false | String _ _ => true end.

(** Anything a [throw] can carry: an [Error] with its message, or some other
    value. *)
Inductive Thrown : Type :=
| ErrorObj (message : string)
| NonError.

End Js.

(** ** Rows and tables *)

Inductive Level : Type := beginner | intermediate | advanced.

Inductive LessonType : Type := video | text | quiz | assignment.

Definition Level_eqb (a b : Level) : bool :=
  match a, b with
  | beginner, beginner | intermediate, intermediate | advanced, advanced => true
  | _, _ => false
  end.

Record UserRow : Type := mkUser {
  user_id : string;
  user_role : string
}.

(** A numeric column that may be NULL; ratings are in the column's fixed-point
    unit. *)
Definition SqlNum : Type := option Z.

Record CourseRow : Type := mkCourse {
  course_id : string;
  title : string;
  slug : string;
  description : string;
  instructorId : string;
  thumbnail : option string;
  category : string;
  tags : list string;
  level : Level;
  duration : string;
  price : string;
  prerequisites : list string;
  learningObjectives : list string;
  status : string;
  rating : SqlNum;
  enrollmentCount : SqlNum
}.

Record LessonRow : Type := mkLesson {
  lesson_id : string;
  lesson_courseId : string;
  lesson_title : string;
  lesson_slug : string;
  lesson_description : string;
  lesson_type : LessonType;
  lesson_content : string;
  lesson_duration : string;
  lesson_order : nat;
  lesson_isFree : bool
}.

Record Db : Type := mkDb {
  users : list UserRow;
  courses : list CourseRow;
  lessons : list LessonRow
}.

(** What a single-row [INSERT ... RETURNING] can do. *)
Inductive InsertOutcome : Type :=
| Accepted                       (* the row is stored and returned *)
| Rejected (e : Js.Thrown)       (* a constraint fails: the driver throws *)
| Skipped.                       (* nothing stored, no row returned *)

(** The environment of a run: the schema's decisions and the two sources of
    non-determinism. *)
Record Env : Type := mkEnv {
  courseCheck : Db -> CourseRow -> InsertOutcome;
  lessonCheck : Db -> list LessonRow -> option Js.Thrown;
  defaultRating : SqlNum;
  defaultEnrollmentCount : SqlNum;
  entropy : nat -> N;
  cuid : nat -> string
}.

Record World : Type := mkWorld {
  env : Env;
  db : Db;
  randomCalls : nat;      (* calls of Math.random() so far *)
  idCalls : nat           (* calls of createId() so far *)
}.

(** ** Effects *)

Inductive Outcome (A : Type) : Type :=
| Returned (a : A)
| Threw (e : Js.Thrown).
Arguments Returned {A} a.
Arguments Threw {A} e.

Definition Eff (A : Type) : Type := World -> Outcome A * World.

Definition ret {A} (a : A) : Eff A := fun w => (Returned a, w).

Definition throw {A} (e : Js.Thrown) : Eff A := fun w => (Threw e, w).

Definition bind {A B} (m : Eff A) (k : A -> Eff B) : Eff B :=
  fun w =>
    match m w with
    | (Returned a, w') => k a w'
    | (Threw e, w') => (Threw e, w')
    end.

(** [try { m } catch (e) { h e }] *)
Definition try_catch {A} (m : Eff A) (h : Js.Thrown -> Eff A) : Eff A :=
  fun w =>
    match m w with
    | (Returned a, w') => (Returned a, w')
    | (Threw e, w') => h e w'
    end.

Definition read_db : Eff Db := fun w => (Returned (db w), w).

Definition read_env : Eff Env := fun w => (Returned (env w), w).

Declare Scope eff_scope.
Delimit Scope eff_scope with eff.
Notation "x <- m ;; k" := (bind m (fun x => k))
  (at level 61, m at next level, right associativity) : eff_scope.
Notation "m ;;; k" := (bind m (fun _ => k))
  (at level 61, right associativity) : eff_scope.
Open Scope eff_scope.

Definition two53 : N := 9007199254740992.

(** The world after one more call of [Math.random()], and after [k] more
    calls of [createId()]. *)
Definition after_random (w : World) : World :=
  mkWorld (env w) (db w) (S (randomCalls w)) (idCalls w).

Definition after_ids (k : nat) (w : World) : World :=
  mkWorld (env w) (db w) (randomCalls w) (k + idCalls w).

(** The value of [Math.floor(Math.random() * n)] at the next draw. *)
Definition drawn_index (n : nat) (w : World) : nat :=
  let k := N.modulo (entropy (env w) (randomCalls w)) two53 in
  N.to_nat (N.div (k * N.of_nat n) two53).

(** [Math.floor(Math.random() * n)] *)
Definition random_index (n : nat) : Eff nat :=
  fun w => (Returned (drawn_index n w), after_random w).

(** [createId()] *)
Definition createId : Eff string :=
  fun w => (Returned (cuid (env w) (idCalls w)), after_ids 1 w).

Definition store_course (row : CourseRow) (w : World) : World :=
  mkWorld (env w)
          (mkDb (users (db w)) (courses (db w) ++ [row]) (lessons (db w)))
          (randomCalls w) (idCalls w).

Definition store_lessons (rows : list LessonRow) (w : World) : World :=
  mkWorld (env w)
          (mkDb (users (db w)) (courses (db w)) (lessons (db w) ++ rows))
          (randomCalls w) (idCalls w).

(** [db.insert(courses).values(row).returning()] *)
Definition insert_course (row : CourseRow) : Eff (list CourseRow) :=
  fun w =>
    match courseCheck (env w) (db w) row with
    | Accepted => (Returned [row], store_course row w)
    | Rejected e => (Threw e, w)
    | Skipped => (Returned [], w)
    end.

(** [db.insert(lessonsTable).values(rows)]: one statement, all rows or none. *)
Definition insert_lessons (rows : list LessonRow) : Eff unit :=
  fun w =>
    match lessonCheck (env w) (db w) rows with
    | Some e => (Threw e, w)
    | None => (Returned tt, store_lessons rows w)
    end.

(** ** The course-creation tool ([createCourseTool]) *)

(** Course thumbnail images from seed data. *)
Definition COURSE_THUMBNAILS : list string :=
  [ "https://images.pexels.com/photos/4050315/pexels-photo-4050315.jpeg";
    "https://images.pexels.com/photos/2004161/pexels-photo-2004161.jpeg";
    "https://images.pexels.com/photos/3861969/pexels-photo-3861969.jpeg";
    "https://images.pexels.com/photos/1181467/pexels-photo-1181467.jpeg";
    "https://images.pexels.com/photos/1181244/pexels-photo-1181244.jpeg";
    "https://images.pexels.com/photos/577585/pexels-photo-577585.jpeg";
    "https://images.pexels.com/photos/1181675/pexels-photo-1181675.jpeg";
    "https://images.pexels.com/photos/8386440/pexels-photo-8386440.jpeg" ].

(** An index past the end reads [undefined]. *)
Definition getRandomThumbnail : Eff (option string) :=
  i <- random_index (List.length COURSE_THUMBNAILS) ;;
  ret (nth_error COURSE_THUMBNAILS i).

Definition is_instructor (u : UserRow) : bool :=
  String.eqb (user_role u) "instructor".

(** [select({ id: users.id }).from(users).where(eq(users.role, 'instructor'))] *)
Definition instructorIds (d : Db) : list string :=
  map user_id (filter is_instructor (users d)).

Definition getRandomInstructor : Eff string :=
  d <- read_db ;;
  let instructors := instructorIds d in
  if (List.length instructors =? 0)%nat
  then throw (Js.ErrorObj "No instructors found in the database")
  else
    i <- random_index (List.length instructors) ;;
    match nth_error instructors i with
    | Some id => ret id
    | None => throw (Js.ErrorObj "Cannot read properties of undefined (reading 'id')")
    end.

(** The arguments of the tool, as its zod schema validates them.  A lesson
    carries no position: the schema has no such member. *)
Record LessonInput : Type := mkLessonInput {
  in_title : string;
  in_description : string;
  in_type : LessonType;
  in_duration : string;
  in_content : string
}.

Record CreateCourseArgs : Type := mkArgs {
  arg_title : string;
  arg_description : string;
  arg_category : string;
  arg_level : Level;
  arg_duration : string;
  arg_tags : list string;
  arg_prerequisites : list string;
  arg_learningObjectives : list string;
  arg_lessons : list LessonInput;
  arg_instructorId : string
}.

(** What [execute] returns. *)
Inductive ToolResult : Type :=
| ToolOk (course : CourseRow) (lessonsCreated : nat) (message : string)
    (* { success: true, course, lessonsCreated, message } *)
| ToolFail (error : string) (message : string).
    (* { success: false, error, message } *)

(** [t.toLowerCase().replace(/\s+/g, '-').replace(/[^a-z0-9-]/g, '')] *)
Definition baseSlug (t : string) : string :=
  Js.keep_slug_chars (Js.replace_ws_runs false (Js.toLowerCase t)).

(** [lessons.map((lesson, index) => ...)], the callback run on the lessons from
    [index] on.  Each lesson draws two identifiers: its id, then the one whose
    tail ends its slug. *)
Fixpoint lessonsToInsert (courseId : string) (index : nat)
    (ls : list LessonInput) : Eff (list LessonRow) :=
  match ls with
  | [] => ret []
  | lesson :: rest =>
      id <- createId ;;
      sid <- createId ;;
      let lessonData :=
        mkLesson id courseId (in_title lesson)
                 (baseSlug (in_title lesson) ++ "-" ++ Js.slice_last 8 sid)
                 (in_description lesson) (in_type lesson) (in_content lesson)
                 (in_duration lesson) (index + 1) (index =? 0)%nat in
      rows <- lessonsToInsert courseId (S index) rest ;;
      ret (lessonData :: rows)
  end.

Definition lessonErrorMessage (lessonError : Js.Thrown) : string :=
  "Failed to create lessons: " ++
  match lessonError with
  | Js.ErrorObj m => m
  | Js.NonError => "Unknown error"
  end.

Definition noDataMessage : string :=
  "Course creation failed - no data returned from database".

Definition successMessage (t : string) (lessonsCount : nat) : string :=
  "Course " ++ Js.dquote ++ t ++ Js.dquote ++
  " has been successfully created and published with " ++
  Js.of_nat lessonsCount ++ " lessons.".

(** The object handed to [.values(...)], with the draws made on the way to it:
    the instructor, the course id, then the thumbnail.  The two last columns
    are the ones the insert leaves to the schema's defaults. *)
Definition course_values (a : CreateCourseArgs) : Eff CourseRow :=
  validInstructorId <- getRandomInstructor ;;
  courseId <- createId ;;
  let slug := (baseSlug (arg_title a) ++ "-" ++ Js.slice_last 8 courseId)%string in
  thumb <- getRandomThumbnail ;;
  e <- read_env ;;
  ret (mkCourse courseId (arg_title a) slug (arg_description a)
                validInstructorId thumb (arg_category a) (arg_tags a)
                (arg_level a) (arg_duration a) "0" (arg_prerequisites a)
                (arg_learningObjectives a) "published"
                (defaultRating e) (defaultEnrollmentCount e)).

(** The lesson part: runs only on a non-empty list. *)
Definition create_lessons (courseId : string) (ls : list LessonInput) :
    Eff unit :=
  if (0 <? List.length ls)%nat
  then
    rows <- lessonsToInsert courseId 0 ls ;;
    try_catch (insert_lessons rows)
              (fun lessonError =>
                 throw (Js.ErrorObj (lessonErrorMessage lessonError)))
  else ret tt.

(** The [try] block of [execute]. *)
Definition createCourse_try (a : CreateCourseArgs) : Eff ToolResult :=
  values <- course_values a ;;
  newCourse <- insert_course values ;;
  match newCourse with
  | [] => throw (Js.ErrorObj noDataMessage)
  | created :: _ =>
      create_lessons (course_id values) (arg_lessons a) ;;;
      let lessonsCount := List.length (arg_lessons a) in
      ret (ToolOk created lessonsCount
                  (successMessage (arg_title a) lessonsCount))
  end.

Definition errorMessage (error : Js.Thrown) : string :=
  match error with
  | Js.ErrorObj m => m
  | Js.NonError => "Unknown error occurred while creating course"
  end.

Definition createCourse_execute (a : CreateCourseArgs) : Eff ToolResult :=
  try_catch (createCourse_try a)
    (fun error =>
       ret (ToolFail "Failed to create course" (errorMessage error))).


(** ** The catalog tools of the chat module *)

Module Sql.

(** Ascending order on a nullable numeric column: NULL sorts last. *)
Definition compare (a b : SqlNum) : comparison :=
  match a, b with
  | Some x, Some y => Z.compare x y
  | Some _, None => Lt
  | None, Some _ => Gt
  | None, None => Eq
  end.

(** Stable insertion sort: a deterministic choice among the orders
    [ORDER BY] allows. *)
Fixpoint insert_by {A} (leb : A -> A -> bool) (x : A) (l : list A) : list A :=
  match l with
  | [] => [x]
  | y :: r => if leb x y then x :: l else y :: insert_by leb x r
  end.

Fixpoint order_by {A} (leb : A -> A -> bool) (l : list A) : list A :=
  match l with
  | [] => []
  | x :: r => insert_by leb x (order_by leb r)
  end.

(** [LIMIT n]: a negative count is an error of the statement. *)
Definition limit {A} (n : Z) (rows : list A) : Eff (list A) :=
  if (n <? 0)%Z then throw (Js.ErrorObj "LIMIT must not be negative")
  else ret (firstn (Z.to_nat n) rows).

(** [LIKE]: [%] matches any run, [_] any one character, a backslash takes the
    next pattern character literally.  A pattern ending in a lone backslash is
    an error of the statement; no pattern built below ends so, and the model
    answers [false] there. *)
Fixpoint like (p : string) : string -> bool :=
  match p with
  | EmptyString =>
      fun s => match s with EmptyString => true | String _ _ => false end
  | String c p' =>
      if Ascii.eqb c "%" then
        fix star (s : string) : bool :=
          like p' s ||
          match s with
          | EmptyString => false
          | String _ s' => star s'
          end
      else if Ascii.eqb c "_" then
        fun s =>
          match s with
          | EmptyString => false
          | String _ s' => like p' s'
          end
      else if Ascii.eqb c "\" then
        match p' with
        | EmptyString => fun _ => false
        | String e p'' =>
            fun s =>
              match s with
              | EmptyString => false
              | String d s' => Ascii.eqb d e && like p'' s'
              end
        end
      else
        fun s =>
          match s with
          | EmptyString => false
          | String d s' => Ascii.eqb d c && like p' s'
          end
  end.

Definition lower (s : string) : string := Js.toLowerCase s.

(** [ILIKE]: [LIKE] on the case-folded operands. *)
Definition ilike (value pattern : string) : bool :=
  like (lower pattern) (lower value).

End Sql.

(** The columns the two tools select. *)
Record CourseSummary : Type := mkSummary {
  sum_id : string;
  sum_title : string;
  sum_description : string;
  sum_category : string;
  sum_level : Level;
  sum_duration : string;
  sum_rating : SqlNum;
  sum_enrollmentCount : SqlNum
}.

Definition summary_of (c : CourseRow) : CourseSummary :=
  mkSummary (course_id c) (title c) (description c) (category c) (level c)
            (duration c) (rating c) (enrollmentCount c).

(** [.orderBy(courses.rating, courses.enrollmentCount)]: both keys ascending. *)
Definition catalog_leb (a b : CourseRow) : bool :=
  match Sql.compare (rating a) (rating b) with
  | Lt => true
  | Gt => false
  | Eq =>
      match Sql.compare (enrollmentCount a) (enrollmentCount b) with
      | Gt => false
      | _ => true
      end
  end.

    (* { error, courses: [], count: 0 } *)



Definition or_default {A} (d : A) (o : option A) : A :=
  match o with Some x => x | None => d end.


Inductive TextColumn : Type := col_title | col_description | col_category.

Definition column (k : TextColumn) (c : CourseRow) : string :=
  match k with
  | col_title => title c
  | col_description => description c
  | col_category => category c
  end.

(** The drizzle conditions the search builds. *)
Inductive Cond : Type :=
| c_ilike (k : TextColumn) (pattern : string)
| c_eq (k : TextColumn) (v : string)
| c_eq_level (l : Level)
| c_or (cs : list Cond)
| c_and (cs : list Cond).

Fixpoint holds (q : Cond) (c : CourseRow) : bool :=
  match q with
  | c_ilike k p => Sql.ilike (column k c) p
  | c_eq k v => String.eqb (column k c) v
  | c_eq_level l => Level_eqb (level c) l
  | c_or cs => existsb (fun q' => holds q' c) cs
  | c_and cs => forallb (fun q' => holds q' c) cs
  end.

(** [.where(whereClause)]; [undefined] keeps every row. *)
Definition sql_where (whereClause : option Cond) (rows : list CourseRow) :
    list CourseRow :=
  match whereClause with
  | None => rows
  | Some q => filter (holds q) rows
  end.

Definition wrap_percent (query : string) : string := "%" ++ query ++ "%".

(** The [conditions] array after the three [if]s. *)
Definition search_conditions (query category : option string)
    (lvl : option Level) : list Cond :=
  (match query with
   | Some q =>
       if Js.truthy q
       then [c_or [c_ilike col_title (wrap_percent q);
                   c_ilike col_description (wrap_percent q);
                   c_ilike col_category (wrap_percent q)]]
       else []
   | None => []
   end) ++
  (match category with
   | Some cat => if Js.truthy cat then [c_eq col_category cat] else []
   | None => []
   end) ++
  (match lvl with
   | Some l => [c_eq_level l]
   | None => []
   end).

Inductive SearchResult : Type :=
| SearchOk (courseList : list CourseSummary) (count : nat)
           (searchTerm category : option string) (lvl : option Level)
           (limit : Z)
    (* { courses, count, searchTerm, category, level, limit } *)
| SearchError (error : string).
    (* { error, courses: [], count: 0 } *)

Definition search_courses (r : SearchResult) : list CourseSummary :=
  match r with
  | SearchOk l _ _ _ _ _ => l
  | SearchError _ => []
  end.

(** [searchCoursesTool.execute({ query, category, level, limit = 20 })] *)
Definition searchCourses_execute (query category : option string)
    (lvl : option Level) (limit : option Z) : Eff SearchResult :=
  let limit := or_default 20%Z limit in
  try_catch
    (let conditions := search_conditions query category lvl in
     let whereClause :=
       if (0 <? List.length conditions)%nat then Some (c_and conditions)
       else None in
     d <- read_db ;;
     courseList <-
       Sql.limit limit
         (map summary_of
              (Sql.order_by catalog_leb (sql_where whereClause (courses d)))) ;;
     ret (SearchOk courseList (List.length courseList) query category lvl limit))
    (fun _ => ret (SearchError "Failed to search courses")).

(** ** [POST /ai/generate-course] *)

Record GenerateRequest : Type := mkRequest {
  req_prompt : option string;        (* [None]: missing or not a string *)
  req_instructorId : option string
}.

(** [generateCourseSchema.parse(req.body)]: the issues, or the parsed body. *)
Definition generateCourseSchema_parse (r : GenerateRequest) :
    list string + (string * option string) :=
  match req_prompt r with
  | None => inl ["Required"]
  | Some p =>
      if (String.length p <? 10)%nat
      then inl ["Prompt must be at least 10 characters"]
      else inr (p, req_instructorId r)
  end.

(** What the hosted model answers, in order.  The route declares one tool,
    [createCourse]; a call of it arrives with schema-valid arguments. *)
Inductive ModelEvent : Type :=
| ev_text (textDelta : string)
| ev_call_createCourse (args : CreateCourseArgs)
| ev_other.

(** The parts of [result.fullStream] the route can tell apart. *)
Inductive Chunk : Type :=
| text_delta (textDelta : string)
| tool_call (toolName : string)
| tool_result (toolName : string) (result : ToolResult)
| other_chunk.

(** [streamText({ ..., tools: { createCourse: createCourseTool } })]: the
    gateway runs the tool when the model calls it and reports its result in
    the stream. *)
Fixpoint fullStream (events : list ModelEvent) : Eff (list Chunk) :=
  match events with
  | [] => ret []
  | ev_text d :: rest =>
      cs <- fullStream rest ;;
      ret (text_delta d :: cs)
  | ev_call_createCourse a :: rest =>
      r <- createCourse_execute a ;;
      cs <- fullStream rest ;;
      ret (tool_call "createCourse" :: tool_result "createCourse" r :: cs)
  | ev_other :: rest =>
      cs <- fullStream rest ;;
      ret (other_chunk :: cs)
  end.

(** The three variables of the collecting loop. *)
Record Collected : Type := mkCollected {
  courseCreated : bool;
  courseData : option ToolResult;
  aiResponse : string
}.

Definition collect_chunk (st : Collected) (chunk : Chunk) : Collected :=
  match chunk with
  | text_delta d =>
      mkCollected (courseCreated st) (courseData st) (aiResponse st ++ d)
  | tool_result name r =>
      if String.eqb name "createCourse"
      then mkCollected true (Some r) (aiResponse st)
      else st
  | _ => st
  end.

(** [for await (const chunk of result.fullStream) { ... }] *)
Definition collect (chunks : list Chunk) : Collected :=
  fold_left collect_chunk chunks (mkCollected false None EmptyString).

(** The JSON bodies of the route. *)
Inductive GenerateBody : Type :=
| body_created (course : CourseRow) (message aiResponse : string)
    (* { success: true, course, message, aiResponse } *)
| body_not_created (error details aiResponse : string)
                   (debugInfo : option ToolResult)
    (* { error, details, aiResponse, debugInfo } *)
| body_invalid (error : string) (details : list string)
    (* { error, details } *)
| body_failed (error message : string).
    (* { error, message } *)

Record Response (B : Type) : Type := mkResponse {
  http_status : nat;
  body : B
}.
Arguments mkResponse {B} http_status body.
Arguments http_status {B} r.
Arguments body {B} r.

(** The [success] member of a body, [None] when the body has none. *)
Definition success_member (b : GenerateBody) : option bool :=
  match b with
  | body_created _ _ _ => Some true
  | _ => None
  end.

Definition noToolCallDetails : string :=
  "AI did not call the createCourse tool".

(** [courseData?.message || courseData?.error || '...'] *)
Definition failure_details (data : option ToolResult) : string :=
  let message :=
    match data with
    | Some (ToolOk _ _ m) => Some m
    | Some (ToolFail _ m) => Some m
    | None => None
    end in
  let error :=
    match data with
    | Some (ToolFail e _) => Some e
    | _ => None
    end in
  match message with
  | Some (String c m) => String c m
  | _ =>
      match error with
      | Some (String c e) => String c e
      | _ => noToolCallDetails
      end
  end.

(** The response after the loop: [if (courseCreated && courseData?.success)]. *)
Definition respond (st : Collected) : Response GenerateBody :=
  match courseCreated st, courseData st with
  | true, Some (ToolOk course _ message) =>
      mkResponse 200 (body_created course message (Js.trim (aiResponse st)))
  | _, data =>
      mkResponse 500
        (body_not_created "Failed to create course" (failure_details data)
                          (Js.trim (aiResponse st)) data)
  end.

(** The handler.  [events] is the model's answer to the two prompts the
    handler sends; building the prompts only reads the catalog. *)
Definition generateCourse_route (r : GenerateRequest)
    (events : list ModelEvent) (w : World) : Response GenerateBody * World :=
  match generateCourseSchema_parse r with
  | inl issues =>
      (mkResponse 400 (body_invalid "Invalid request data" issues), w)
  | inr _ =>
      match fullStream events w with
      | (Returned chunks, w') => (respond (collect chunks), w')
      | (Threw e, w') =>
          (mkResponse 500
             (body_failed "Failed to generate course"
                match e with
                | Js.ErrorObj m => m
                | Js.NonError => "Unknown error"
                end), w')
      end
  end.

(** ** [GET /ai/stats] *)

Inductive StatsBody : Type :=
| stats_ok (totalCourses aiGeneratedCourses : nat) (message : string)
    (* { totalCourses, aiGeneratedCourses, message } *)
| stats_error (error : string).
    (* { error } *)

Definition stats_route (w : World) : Response StatsBody * World :=
  match (d <- read_db ;;
         let totalCourses := map course_id (courses d) in
         ret (stats_ok (List.length totalCourses) 0
                       "AI course generation is operational")) w with
  | (Returned b, w') => (mkResponse 200 b, w')
  | (Threw _, w') => (mkResponse 500 (stats_error "Failed to get AI stats"), w')
  end.

(** ** Vocabulary of the properties *)

(** [s.startsWith(q)] and [s.includes(q)]. *)
Fixpoint starts_with (q s : string) : bool :=
  match q with
  | EmptyString => true
  | String c q' =>
      match s with
      | EmptyString => false
      | String d s' => Ascii.eqb d c && starts_with q' s'
      end
  end.







(** Ascending on (rating, enrollment count), NULL last: the order of the
    source's [orderBy], read on the selected columns. *)
Definition ascending_leb (a b : CourseSummary) : bool :=
  match Sql.compare (sum_rating a) (sum_rating b) with
  | Lt => true
  | Gt => false
  | Eq =>
      match Sql.compare (sum_enrollmentCount a) (sum_enrollmentCount b) with
      | Gt => false
      | _ => true
      end
  end.


(** Every element is related to each later one. *)
Fixpoint sortedb {A} (leb : A -> A -> bool) (l : list A) : bool :=
  match l with
  | [] => true
  | x :: r => forallb (leb x) r && sortedb leb r
  end.


(** Every code unit of [s] passes [p]. *)
Fixpoint all_chars (p : ascii -> bool) (s : string) : bool :=
  match s with
  | EmptyString => true
  | String c r => p c && all_chars p r
  end.

Definition draft_of (r : LessonRow) : LessonInput :=
  mkLessonInput (lesson_title r) (lesson_description r) (lesson_type r)
                (lesson_duration r) (lesson_content r).

Definition is_call (e : ModelEvent) : bool :=
  match e with
  | ev_call_createCourse _ => true
  | _ => false
  end.

(** The text the model produced, in order. *)
Fixpoint text_of (events : list ModelEvent) : string :=
  match events with
  | [] => EmptyString
  | ev_text d :: rest => d ++ text_of rest
  | _ :: rest => text_of rest
  end.

Definition debugInfo_of (b : GenerateBody) : option ToolResult :=
  match b with
  | body_not_created _ _ _ d => d
  | _ => None
  end.

(** ** Sample worlds *)

Module Sample.

Definition permissive (entropy : nat -> N) (cuid : nat -> string) : Env :=
  mkEnv (fun _ _ => Accepted) (fun _ _ => None) (Some 0%Z) (Some 0%Z)
        entropy cuid.

(** Identifiers whose last eight characters differ from call to call. *)
Definition cuid_counting (n : nat) : string :=
  "tz4a98xxat96iws9zb6r" ++ Js.of_nat (1000 + n).


(** Every draw is one half. *)
Definition half (_ : nat) : N := 4503599627370496.

Definition staff : list UserRow :=
  [ mkUser "i1" "instructor"; mkUser "s1" "student"; mkUser "i2" "instructor" ].

Definition course (id : string) (cat : string) (r e : Z) : CourseRow :=
  mkCourse id ("Course " ++ id) ("course-" ++ id) "About it" "i1" None cat []
           beginner "1 hour" "0" [] [] "published" (Some r) (Some e).

Definition catalog : list CourseRow :=
  [ course "a" "web" 450 10; course "b" "web" 120 99; course "c" "ops" 450 7 ].

Definition world : World :=
  mkWorld (permissive half cuid_counting) (mkDb staff catalog []) 0 0.


Definition world_no_instructor : World :=
  mkWorld (permissive half cuid_counting)
          (mkDb [mkUser "s1" "student"] catalog []) 0 0.

Definition lessons_refused : Js.Thrown :=
  Js.ErrorObj "null value in column violates not-null constraint".

Definition world_lessons_refused : World :=
  mkWorld (mkEnv (fun _ _ => Accepted) (fun _ _ => Some lessons_refused)
                 (Some 0%Z) (Some 0%Z) half cuid_counting)
          (mkDb staff catalog []) 0 0.

Definition lesson (t : string) : LessonInput :=
  mkLessonInput t "What it covers" video "45 min" "Outline".

Definition args (ls : list LessonInput) : CreateCourseArgs :=
  mkArgs "HTTP  Caching: 101!" "A course" "web" beginner "8 hours" ["http"] []
         ["Caching"] ls "i1".

Definition three_lessons : list LessonInput :=
  [ lesson "Intro"; lesson "Cache-Control"; lesson "ETags" ].

(** The row a run on [world] submits for [args]. *)
Definition created : CourseRow :=
  mkCourse "tz4a98xxat96iws9zb6r1000" "HTTP  Caching: 101!"
           "http-caching-101-zb6r1000" "A course" "i2"
           (nth_error COURSE_THUMBNAILS 4) "web" ["http"] beginner "8 hours"
           "0" [] ["Caching"] "published" (Some 0%Z) (Some 0%Z).

Definition request : GenerateRequest :=
  mkRequest (Some "Beginner course on HTTP caching") (Some "i1").

End Sample.

(** ** The lesson tool of the chat module ([getLessonsTool]) *)

(** The columns the tool selects. *)
Record LessonSummary : Type := mkLessonSummary {
  ls_id : string;
  ls_courseId : string;
  ls_title : string;
  ls_description : string;
  ls_type : LessonType;
  ls_duration : string;
  ls_order : nat;
  ls_isFree : bool
}.

Definition lesson_summary_of (r : LessonRow) : LessonSummary :=
  mkLessonSummary (lesson_id r) (lesson_courseId r) (lesson_title r)
                  (lesson_description r) (lesson_type r) (lesson_duration r)
                  (lesson_order r) (lesson_isFree r).

Inductive LessonColumn : Type := lcol_title | lcol_description.

Definition lesson_column (k : LessonColumn) (r : LessonRow) : string :=
  match k with
  | lcol_title => lesson_title r
  | lcol_description => lesson_description r
  end.

Inductive LessonCond : Type :=
| l_eq_courseId (v : string)
| l_ilike (k : LessonColumn) (pattern : string)
| l_or (cs : list LessonCond)
| l_and (cs : list LessonCond).

Fixpoint lesson_holds (q : LessonCond) (r : LessonRow) : bool :=
  match q with
  | l_eq_courseId v => String.eqb (lesson_courseId r) v
  | l_ilike k p => Sql.ilike (lesson_column k r) p
  | l_or cs => existsb (fun q' => lesson_holds q' r) cs
  | l_and cs => forallb (fun q' => lesson_holds q' r) cs
  end.

Definition lesson_where (whereClause : option LessonCond)
    (rows : list LessonRow) : list LessonRow :=
  match whereClause with
  | None => rows
  | Some q => filter (lesson_holds q) rows
  end.

(** The [conditions] array after the two [if]s. *)
Definition lesson_conditions (courseId query : option string) :
    list LessonCond :=
  (match courseId with
   | Some cid => if Js.truthy cid then [l_eq_courseId cid] else []
   | None => []
   end) ++
  (match query with
   | Some q =>
       if Js.truthy q
       then [l_or [l_ilike lcol_title (wrap_percent q);
                   l_ilike lcol_description (wrap_percent q)]]
       else []
   | None => []
   end).

(** [.orderBy(lessons.order)] *)
Definition lesson_leb (a b : LessonRow) : bool :=
  (lesson_order a <=? lesson_order b)%nat.

Inductive LessonsResult : Type :=
| LessonsOk (lessonList : list LessonSummary) (count : nat)
            (courseId searchTerm : option string)
    (* { lessons, count, courseId, searchTerm } *)
| LessonsError (error : string).
    (* { error, lessons: [], count: 0 } *)

Definition result_lessons (r : LessonsResult) : list LessonSummary :=
  match r with
  | LessonsOk l _ _ _ => l
  | LessonsError _ => []
  end.

(** [getLessonsTool.execute({ courseId, query })] *)
Definition getLessons_execute (courseId query : option string) :
    Eff LessonsResult :=
  try_catch
    (let conditions := lesson_conditions courseId query in
     let whereClause :=
       if (0 <? List.length conditions)%nat then Some (l_and conditions)
       else None in
     d <- read_db ;;
     lessonList <-
       Sql.limit 20%Z
         (map lesson_summary_of
              (Sql.order_by lesson_leb (lesson_where whereClause (lessons d)))) ;;
     ret (LessonsOk lessonList (List.length lessonList) courseId query))
    (fun _ => ret (LessonsError "Failed to get lessons")).

(** ** The client: [fetchApi] and the wizard's [handleGenerateCourse] *)












Definition count_calls (events : list ModelEvent) : nat :=
  List.length (filter is_call events).



Module Demo.


Definition old_lesson (id cid : string) (pos : nat) : LessonRow :=
  mkLesson id cid ("Lesson " ++ id) ("lesson-" ++ id) "Basics" video "Outline"
           "10 min" pos (pos =? 1)%nat.

(** The sample world with a lesson table that is not empty. *)
Definition world_with_lessons : World :=
  mkWorld (Sample.permissive Sample.half Sample.cuid_counting)
          (mkDb Sample.staff Sample.catalog
                [ old_lesson "l2" "a" 2; old_lesson "l3" "b" 1;
                  old_lesson "l1" "a" 1 ])
          0 0.

(** The course insert is refused. *)
Definition duplicate_key : Js.Thrown :=
  Js.ErrorObj "duplicate key value violates unique constraint".

Definition world_course_refused : World :=
  mkWorld (mkEnv (fun _ _ => Rejected duplicate_key) (fun _ _ => None)
                 (Some 0%Z) (Some 0%Z) Sample.half Sample.cuid_counting)
          (mkDb Sample.staff Sample.catalog []) 0 0.

End Demo.

(** * Properties *)

(** ** Drawing an index, an identifier, an instructor *)

Lemma drawn_index_lt (n : nat) (w : World) :
  0 < n -> drawn_index n w < n.
Proof.
  intros Hn. unfold drawn_index. cbv zeta.
  set (k := N.modulo _ two53).
  assert (Hk : (k < two53)%N) by (apply N.mod_lt; discriminate).
  assert (Hq : (k * N.of_nat n / two53 < N.of_nat n)%N).
  { apply N.Div0.div_lt_upper_bound. nia. }
  lia.
Qed.

Lemma getRandomInstructor_none (w : World) :
  instructorIds (db w) = [] ->
  getRandomInstructor w =
  (Threw (Js.ErrorObj "No instructors found in the database"), w).
Proof.
  intros H. unfold getRandomInstructor, bind, read_db. rewrite H. reflexivity.
Qed.

Lemma getRandomInstructor_some (w : World) :
  instructorIds (db w) <> [] ->
  exists id,
    getRandomInstructor w = (Returned id, after_random w) /\
    nth_error (instructorIds (db w))
              (drawn_index (List.length (instructorIds (db w))) w) = Some id.
Proof.
  intros H. unfold getRandomInstructor, bind, read_db.
  destruct (instructorIds (db w)) as [|i0 ids] eqn:E; [congruence|].
  cbn [List.length Nat.eqb]. unfold random_index.
  pose proof (drawn_index_lt (S (List.length ids)) w) as Hlt.
  destruct (nth_error (i0 :: ids) (drawn_index (S (List.length ids)) w))
    as [id|] eqn:En.
  - exists id. split; reflexivity.
  - apply nth_error_None in En. cbn [List.length] in En. lia.
Qed.

Lemma getRandomInstructor_inv (w w1 : World) (id : string) :
  getRandomInstructor w = (Returned id, w1) ->
  w1 = after_random w /\
  nth_error (instructorIds (db w))
            (drawn_index (List.length (instructorIds (db w))) w) = Some id.
Proof.
  intros H.
  destruct (instructorIds (db w)) as [|i0 ids] eqn:E.
  - rewrite (getRandomInstructor_none w E) in H. discriminate.
  - destruct (getRandomInstructor_some w) as (id' & H' & Hin); [congruence|].
    rewrite H' in H. inversion H; subst. rewrite <- E. auto.
Qed.

(** ** The values of the course row *)

Lemma course_values_inv (a : CreateCourseArgs) (w w1 : World) (row : CourseRow) :
  course_values a w = (Returned row, w1) ->
  nth_error (instructorIds (db w))
            (drawn_index (List.length (instructorIds (db w))) w) =
    Some (instructorId row) /\
  course_id row = cuid (env w) (idCalls w) /\
  slug row =
    (baseSlug (arg_title a) ++ "-" ++ Js.slice_last 8 (course_id row))%string /\
  title row = arg_title a /\
  price row = "0" /\ status row = "published" /\
  db w1 = db w /\ env w1 = env w /\ idCalls w1 = S (idCalls w).
Proof.
  unfold course_values, bind. intros H.
  destruct (getRandomInstructor w) as [[id|e] wa] eqn:Ei; [|discriminate].
  apply getRandomInstructor_inv in Ei. destruct Ei as [-> Hin].
  cbn in H. inversion H; subst; clear H. cbn. repeat split; auto.
Qed.

Lemma course_values_throws (a : CreateCourseArgs) (w w1 : World) (e : Js.Thrown) :
  course_values a w = (Threw e, w1) ->
  instructorIds (db w) = [] /\ w1 = w /\
  e = Js.ErrorObj "No instructors found in the database".
Proof.
  unfold course_values, bind. intros H.
  destruct (instructorIds (db w)) as [|i0 ids] eqn:E.
  - rewrite (getRandomInstructor_none w E) in H. inversion H; auto.
  - destruct (getRandomInstructor_some w) as (id' & H' & Hin); [congruence|].
    rewrite H' in H. cbn in H. discriminate.
Qed.

(** ** The lesson rows *)

Lemma lessonsToInsert_spec (cid : string) (ls : list LessonInput) :
  forall (index : nat) (w : World),
  exists rows,
    lessonsToInsert cid index ls w =
      (Returned rows, after_ids (2 * List.length ls) w) /\
    map draft_of rows = ls /\
    map lesson_order rows = seq (index + 1) (List.length ls) /\
    map lesson_isFree rows =
      map (fun i => (i =? 0)%nat) (seq index (List.length ls)) /\
    Forall (fun r => lesson_courseId r = cid) rows.
Proof.
  induction ls as [|l rest IH]; intros index w.
  - exists []. cbn. unfold ret, after_ids. destruct w; cbn.
    repeat split; auto.
  - destruct (IH (S index) (after_ids 2 w)) as (rows & Hrun & Hd & Ho & Hf & Hc).
    eexists (_ :: rows).
    cbn [lessonsToInsert]. unfold bind at 1. cbn [createId].
    unfold bind at 1. cbn [createId env db randomCalls idCalls].
    unfold bind at 1.
    change (after_ids 1 (after_ids 1 w)) with (after_ids 2 w).
    rewrite Hrun. unfold ret.
    split; [|split; [|split; [|split]]].
    + apply f_equal2; [reflexivity|].
      unfold after_ids. cbn [env db randomCalls idCalls List.length].
      f_equal. lia.
    + cbn [map]. rewrite Hd. destruct l; reflexivity.
    + cbn [map lesson_order List.length seq]. f_equal.
      rewrite Ho. reflexivity.
    + cbn [map lesson_isFree List.length seq]. f_equal. exact Hf.
    + constructor; [reflexivity | exact Hc].
Qed.

(** ** Running the tool *)

(** The tool catches what it throws: it always returns a result. *)
Lemma createCourse_execute_returns (a : CreateCourseArgs) (w : World) :
  exists r w', createCourse_execute a w = (Returned r, w').
Proof.
  unfold createCourse_execute, try_catch.
  destruct (createCourse_try a w) as [[r|e] w']; unfold ret; eauto.
Qed.

Lemma create_lessons_cases (cid : string) (ls : list LessonInput) (w : World) :
  exists rows,
    lessonsToInsert cid 0 ls w =
      (Returned rows, after_ids (2 * List.length ls) w) /\
    map draft_of rows = ls /\
    map lesson_order rows = seq 1 (List.length ls) /\
    map lesson_isFree rows =
      map (fun i => (i =? 0)%nat) (seq 0 (List.length ls)) /\
    Forall (fun r => lesson_courseId r = cid) rows /\
    let w2 := after_ids (2 * List.length ls) w in
    match ls, lessonCheck (env w) (db w) rows with
    | _ :: _, Some e =>
        create_lessons cid ls w =
          (Threw (Js.ErrorObj (lessonErrorMessage e)), w2)
    | _, _ => create_lessons cid ls w = (Returned tt, store_lessons rows w2)
    end.
Proof.
  destruct (lessonsToInsert_spec cid ls 0 w) as (rows & Hrun & Hd & Ho & Hf & Hc).
  exists rows. repeat (split; [assumption|]).
  unfold create_lessons. destruct ls as [|l rest].
  - cbn in Hd. apply map_eq_nil in Hd. subst rows.
    cbn. unfold ret, store_lessons, after_ids. cbn. rewrite app_nil_r.
    destruct w as [e [u c l] r i]; reflexivity.
  - cbn [List.length Nat.ltb Nat.leb]. unfold bind. rewrite Hrun.
    unfold try_catch, insert_lessons.
    cbn [env db after_ids].
    destruct (lessonCheck (env w) (db w) rows); reflexivity.
Qed.

(** Every run of the tool, by the decisions of the environment. *)
Lemma createCourse_execute_cases (a : CreateCourseArgs) (w : World) :
  match course_values a w with
  | (Threw _, _) =>
      instructorIds (db w) = [] /\
      createCourse_execute a w =
        (Returned (ToolFail "Failed to create course"
                            "No instructors found in the database"), w)
  | (Returned row, w1) =>
      match courseCheck (env w) (db w) row with
      | Rejected e =>
          createCourse_execute a w =
            (Returned (ToolFail "Failed to create course" (errorMessage e)), w1)
      | Skipped =>
          createCourse_execute a w =
            (Returned (ToolFail "Failed to create course" noDataMessage), w1)
      | Accepted =>
          exists rows,
            lessonsToInsert (course_id row) 0 (arg_lessons a)
                            (store_course row w1) =
              (Returned rows,
               after_ids (2 * List.length (arg_lessons a))
                         (store_course row w1)) /\
            map draft_of rows = arg_lessons a /\
            map lesson_order rows = seq 1 (List.length (arg_lessons a)) /\
            map lesson_isFree rows =
              map (fun i => (i =? 0)%nat)
                  (seq 0 (List.length (arg_lessons a))) /\
            Forall (fun r => lesson_courseId r = course_id row) rows /\
            let w2 :=
              after_ids (2 * List.length (arg_lessons a))
                        (store_course row w1) in
            match arg_lessons a, lessonCheck (env w) (db w2) rows with
            | _ :: _, Some e =>
                createCourse_execute a w =
                  (Returned (ToolFail "Failed to create course"
                                      (lessonErrorMessage e)), w2)
            | _, _ =>
                createCourse_execute a w =
                  (Returned
                     (ToolOk row (List.length (arg_lessons a))
                        (successMessage (arg_title a)
                                        (List.length (arg_lessons a)))),
                   store_lessons rows w2)
            end
      end
  end.
Proof.
  unfold createCourse_execute, try_catch, createCourse_try, bind.
  destruct (course_values a w) as [[row|e] w1] eqn:Ev.
  - destruct (course_values_inv a w w1 row Ev)
      as (_ & _ & _ & _ & _ & _ & Hdb & Henv & _).
    unfold insert_course. rewrite Hdb, Henv.
    destruct (courseCheck (env w) (db w) row) as [|e|]; try reflexivity.
    destruct (create_lessons_cases (course_id row) (arg_lessons a)
                (store_course row w1))
      as (rows & Hl & Hd & Ho & Hf & Hc & Hrun).
    exists rows. repeat (split; [assumption|]).
    cbv zeta in Hrun |- *.
    cbn [env db store_course after_ids] in Hrun |- *.
    rewrite Henv in Hrun.
    destruct (arg_lessons a) as [|l rest].
    + rewrite Hrun. reflexivity.
    + destruct (lessonCheck (env w) _ rows); rewrite Hrun; reflexivity.
  - destruct (course_values_throws a w w1 e Ev) as (Hnone & -> & ->).
    split; [assumption | reflexivity].
Qed.

Lemma createCourse_success_inv (a : CreateCourseArgs) (w w' : World)
    (c : CourseRow) (n : nat) (m : string) :
  createCourse_execute a w = (Returned (ToolOk c n m), w') ->
  exists w1 rows,
    course_values a w = (Returned c, w1) /\
    courseCheck (env w) (db w) c = Accepted /\
    n = List.length (arg_lessons a) /\
    m = successMessage (arg_title a) n /\
    map draft_of rows = arg_lessons a /\
    map lesson_order rows = seq 1 n /\
    map lesson_isFree rows = map (fun i => (i =? 0)%nat) (seq 0 n) /\
    Forall (fun r => lesson_courseId r = course_id c) rows /\
    w' = store_lessons rows (after_ids (2 * n) (store_course c w1)).
Proof.
  intros H. pose proof (createCourse_execute_cases a w) as Hc.
  destruct (course_values a w) as [[row|e] w1] eqn:Ev.
  - destruct (courseCheck (env w) (db w) row) as [|e|] eqn:Ek;
      try (rewrite Hc in H; discriminate).
    destruct Hc as (rows & _ & Hd & Ho & Hf & Hcid & Hrun).
    cbv zeta in Hrun.
    assert (Hok : createCourse_execute a w =
                  (Returned
                     (ToolOk row (List.length (arg_lessons a))
                        (successMessage (arg_title a)
                                        (List.length (arg_lessons a)))),
                   store_lessons rows
                     (after_ids (2 * List.length (arg_lessons a))
                                (store_course row w1)))).
    { destruct (arg_lessons a) as [|l rest]; [exact Hrun|].
      destruct (lessonCheck (env w) _ rows); [|exact Hrun].
      rewrite Hrun in H. discriminate. }
    rewrite Hok in H. inversion H; subst.
    exists w1, rows. repeat split; auto.
  - destruct Hc as [_ Hc]. rewrite Hc in H. discriminate.
Qed.

(** The first lesson row is free, the later ones are not. *)
Lemma isFree_by_position (n : nat) :
  map (fun i => (i =? 0)%nat) (seq 0 n) = map (fun p => (p =? 1)%nat) (seq 1 n).
Proof.
  rewrite <- (seq_shift n 0), map_map. reflexivity.
Qed.


(** ** Claims about [createCourseWithLessons] *)




(** C3: when the course insert succeeds and the lesson batch insert throws [e],
    the tool returns the failure whose message is
    ["Failed to create lessons: "] followed by the thrown message, which is not
    the message of a course insert that returned no row; the course row stays
    in the table and no lesson row is stored. *)
Theorem createCourse_lesson_insert_failure (a : CreateCourseArgs)
    (w w1 w2 w3 w4 : World) (row : CourseRow) (rows : list LessonRow)
    (e : Js.Thrown) :
  course_values a w = (Returned row, w1) ->
  insert_course row w1 = (Returned [row], w2) ->
  arg_lessons a <> [] ->
  lessonsToInsert (course_id row) 0 (arg_lessons a) w2 = (Returned rows, w3) ->
  insert_lessons rows w3 = (Threw e, w4) ->
  createCourse_execute a w =
    (Returned (ToolFail "Failed to create course" (lessonErrorMessage e)), w4) /\
  starts_with "Failed to create lessons: " (lessonErrorMessage e) = true /\
  lessonErrorMessage e <> noDataMessage /\
  courses (db w4) = courses (db w) ++ [row] /\
  lessons (db w4) = lessons (db w).
Proof.
  intros Hv Hi Hne Hl Ht.
  pose proof (createCourse_execute_cases a w) as Hc. rewrite Hv in Hc.
  destruct (course_values_inv a w w1 row Hv)
    as (_ & _ & _ & _ & _ & _ & Hdb & Henv & _).
  unfold insert_course in Hi. rewrite Hdb, Henv in Hi.
  destruct (courseCheck (env w) (db w) row) as [|e'|];
    [|discriminate|discriminate].
  inversion Hi; subst w2; clear Hi.
  destruct Hc as (rows' & Hl' & _ & _ & _ & _ & Hrun).
  rewrite Hl in Hl'. inversion Hl'; subst rows' w3; clear Hl'.
  unfold insert_lessons in Ht. cbv zeta in Hrun.
  cbn [env db after_ids store_course] in Ht, Hrun. rewrite Henv in Ht.
  destruct (arg_lessons a) as [|l rest]; [congruence|].
  destruct (lessonCheck (env w) _ rows) as [e'|]; [|discriminate].
  inversion Ht; subst; clear Ht.
  rewrite Hrun. cbn [db after_ids store_course courses lessons].
  rewrite Hdb. repeat split; try reflexivity.
  unfold lessonErrorMessage, noDataMessage. cbn. discriminate.
Qed.

Lemma createCourse_lesson_insert_failure_witness :
  exists row w4,
    createCourse_execute (Sample.args Sample.three_lessons)
                         Sample.world_lessons_refused =
      (Returned (ToolFail "Failed to create course"
                          (lessonErrorMessage Sample.lessons_refused)), w4) /\
    starts_with "Failed to create lessons: "
                (lessonErrorMessage Sample.lessons_refused) = true /\
    lessonErrorMessage Sample.lessons_refused <> noDataMessage /\
    courses (db w4) = courses (db Sample.world_lessons_refused) ++ [row] /\
    lessons (db w4) = lessons (db Sample.world_lessons_refused).
Proof.
  do 2 eexists.
  eapply (createCourse_lesson_insert_failure
            (Sample.args Sample.three_lessons) Sample.world_lessons_refused).
  - vm_compute. reflexivity.
  - vm_compute. reflexivity.
  - discriminate.
  - vm_compute. reflexivity.
  - vm_compute. reflexivity.
Defined.

(** C4: against a database without instructor accounts the tool returns the
    failure whose message is ["No instructors found in the database"], and the
    world, so every table, is unchanged. *)
Theorem createCourse_no_instructors (a : CreateCourseArgs) (w : World) :
  instructorIds (db w) = [] ->
  createCourse_execute a w =
    (Returned (ToolFail "Failed to create course"
                        "No instructors found in the database"), w).
Proof.
  intros H. pose proof (createCourse_execute_cases a w) as Hc.
  destruct (course_values a w) as [[row|e] w1] eqn:Ev.
  - destruct (course_values_inv a w w1 row Ev) as (Hnth & _).
    rewrite H in Hnth. destruct (drawn_index _ w); discriminate.
  - apply Hc.
Qed.

Lemma createCourse_no_instructors_witness :
  createCourse_execute (Sample.args Sample.three_lessons)
                       Sample.world_no_instructor =
    (Returned (ToolFail "Failed to create course"
                        "No instructors found in the database"),
     Sample.world_no_instructor).
Proof.
  apply (createCourse_no_instructors (Sample.args Sample.three_lessons)
                                     Sample.world_no_instructor).
  reflexivity.
Defined.

(** C5: a successful run, whatever the input lesson list, appends to the
    lesson table one row per input lesson, in input order, carrying the input's title, description, type, duration and
    content; their positions are 1, 2, ..., N; the row at position 1 is
    free to preview and no other row is; each row points at the new course.
    The input has no position member, so none is read. *)
Theorem createCourse_lesson_positions (a : CreateCourseArgs) (w w' : World)
    (c : CourseRow) (n : nat) (m : string) :
  createCourse_execute a w = (Returned (ToolOk c n m), w') ->
  exists rows,
    lessons (db w') = lessons (db w) ++ rows /\
    map draft_of rows = arg_lessons a /\
    map lesson_order rows = seq 1 (List.length (arg_lessons a)) /\
    map lesson_isFree rows =
      map (fun p => (p =? 1)%nat) (seq 1 (List.length (arg_lessons a))) /\
    Forall (fun r => lesson_isFree r = (lesson_order r =? 1)%nat) rows /\
    Forall (fun r => lesson_courseId r = course_id c) rows.
Proof.
  intros H.
  destruct (createCourse_success_inv a w w' c n m H)
    as (w1 & rows & Hv & _ & -> & _ & Hd & Ho & Hf & Hc & ->).
  destruct (course_values_inv a w w1 c Hv)
    as (_ & _ & _ & _ & _ & _ & Hdb & _).
  exists rows. cbn [db store_lessons after_ids store_course lessons].
  rewrite Hdb, <- isFree_by_position.
  repeat split; auto.
  apply Forall_forall. intros r Hr.
  assert (Hm : map lesson_isFree rows =
               map (fun r => (lesson_order r =? 1)%nat) rows).
  { rewrite <- (map_map lesson_order (fun p => (p =? 1)%nat)), Ho, Hf.
    apply isFree_by_position. }
  clear - Hm Hr. induction rows as [|x rows IH]; [destruct Hr|].
  cbn in Hm. inversion Hm. destruct Hr as [->|Hr]; auto.
Qed.

Lemma createCourse_lesson_positions_witness :
  exists w' rows,
    createCourse_execute (Sample.args Sample.three_lessons) Sample.world =
      (Returned (ToolOk Sample.created 3
                        (successMessage "HTTP  Caching: 101!" 3)), w') /\
    lessons (db w') = lessons (db Sample.world) ++ rows /\
    map draft_of rows = Sample.three_lessons /\
    map lesson_order rows = [1; 2; 3] /\
    map lesson_isFree rows = [true; false; false].
Proof.
  assert (E : createCourse_execute (Sample.args Sample.three_lessons)
                                   Sample.world =
              (Returned (ToolOk Sample.created 3
                                (successMessage "HTTP  Caching: 101!" 3)),
               snd (createCourse_execute (Sample.args Sample.three_lessons)
                                         Sample.world)))
    by (vm_compute; reflexivity).
  destruct (createCourse_lesson_positions _ _ _ _ _ _ E)
    as (rows & Hl & Hd & Ho & Hf & _).
  eexists. exists rows. split; [exact E|]. repeat split; assumption.
Defined.

(** C8: a successful run returns [{success: true, course, lessonsCreated,
    message}] where [lessonsCreated] is the length of the input lesson list
    (so 0 for the empty list), [course] is the row appended to the course
    table, with status ["published"] and price ["0"], and the lesson table
    grows by [lessonsCreated] rows. *)
Theorem createCourse_success_shape (a : CreateCourseArgs) (w w' : World)
    (c : CourseRow) (n : nat) (m : string) :
  createCourse_execute a w = (Returned (ToolOk c n m), w') ->
  n = List.length (arg_lessons a) /\
  m = successMessage (arg_title a) n /\
  courses (db w') = courses (db w) ++ [c] /\
  status c = "published" /\ price c = "0" /\
  List.length (lessons (db w')) = List.length (lessons (db w)) + n.
Proof.
  intros H.
  destruct (createCourse_success_inv a w w' c n m H)
    as (w1 & rows & Hv & _ & Hn & Hm & Hd & _ & _ & _ & ->).
  destruct (course_values_inv a w w1 c Hv)
    as (_ & _ & _ & _ & Hp & Hs & Hdb & _).
  cbn [db store_lessons after_ids store_course courses lessons].
  rewrite Hdb. repeat split; auto.
  rewrite length_app. f_equal.
  rewrite Hn, <- Hd. symmetry. apply length_map.
Qed.

Lemma createCourse_success_shape_witness :
  exists w',
    createCourse_execute (Sample.args []) Sample.world =
      (Returned (ToolOk Sample.created 0
                        (successMessage "HTTP  Caching: 101!" 0)), w') /\
    courses (db w') = courses (db Sample.world) ++ [Sample.created] /\
    status Sample.created = "published" /\ price Sample.created = "0" /\
    lessons (db w') = [].
Proof.
  assert (E : createCourse_execute (Sample.args []) Sample.world =
              (Returned (ToolOk Sample.created 0
                                (successMessage "HTTP  Caching: 101!" 0)),
               snd (createCourse_execute (Sample.args []) Sample.world)))
    by (vm_compute; reflexivity).
  destruct (createCourse_success_shape _ _ _ _ _ _ E)
    as (_ & _ & Hc & Hs & Hp & Hl).
  eexists. split; [exact E|].
  split; [exact Hc|]. split; [exact Hs|]. split; [exact Hp|].
  apply length_zero_iff_nil. exact Hl.
Defined.

(** ** Slugs *)

Lemma keep_slug_chars_safe (s : string) :
  all_chars Js.is_slug_char (Js.keep_slug_chars s) = true.
Proof.
  induction s as [|c r IH]; [reflexivity|]. cbn.
  destruct (Js.is_slug_char c) eqn:E; [|exact IH].
  cbn. rewrite E. exact IH.
Qed.

(** The title part of a slug is made of [a-z], [0-9] and [-] only. *)
Lemma baseSlug_url_safe (t : string) :
  all_chars Js.is_slug_char (baseSlug t) = true.
Proof. apply keep_slug_chars_safe. Qed.




(** ** [ORDER BY], [WHERE], [LIMIT] *)

Lemma firstn_subset {A} (n : nat) (l : list A) (x : A) :
  In x (firstn n l) -> In x l.
Proof.
  revert l. induction n as [|n IH]; intros [|y r] H; cbn in H; try contradiction.
  destruct H as [->|H]; [left; reflexivity | right; auto].
Qed.

Section Ordering.

Context {A : Type} (leb : A -> A -> bool).
Hypothesis leb_total : forall a b, leb a b = false -> leb b a = true.
Hypothesis leb_trans :
  forall a b c, leb a b = true -> leb b c = true -> leb a c = true.

Lemma forallb_insert_by (p : A -> bool) (x : A) (l : list A) :
  forallb p (Sql.insert_by leb x l) = p x && forallb p l.
Proof.
  induction l as [|y r IH]; cbn.
  - reflexivity.
  - destruct (leb x y); cbn; [reflexivity|].
    rewrite IH. destruct (p x), (p y); reflexivity.
Qed.

Lemma sortedb_insert_by (x : A) (l : list A) :
  sortedb leb l = true -> sortedb leb (Sql.insert_by leb x l) = true.
Proof.
  induction l as [|y r IH]; intros Hs; [reflexivity|].
  cbn in Hs. apply andb_true_iff in Hs. destruct Hs as [Hy Hr].
  cbn [Sql.insert_by]. destruct (leb x y) eqn:Exy.
  - cbn [sortedb forallb]. rewrite Exy, Hy, Hr. cbn.
    rewrite andb_true_r. apply forallb_forall. intros z Hz.
    rewrite forallb_forall in Hy. eauto.
  - cbn [sortedb]. rewrite forallb_insert_by, Hy, (leb_total _ _ Exy).
    cbn. auto.
Qed.

Lemma sortedb_order_by (l : list A) : sortedb leb (Sql.order_by leb l) = true.
Proof.
  induction l as [|x r IH]; [reflexivity|].
  cbn. apply sortedb_insert_by. exact IH.
Qed.

Lemma sortedb_firstn (n : nat) (l : list A) :
  sortedb leb l = true -> sortedb leb (firstn n l) = true.
Proof.
  revert l. induction n as [|n IH]; intros [|x r] Hs; try reflexivity.
  cbn in Hs |- *. apply andb_true_iff in Hs. destruct Hs as [Hx Hr].
  rewrite (IH r Hr), andb_true_r.
  apply forallb_forall. intros z Hz. rewrite forallb_forall in Hx.
  apply Hx. eapply firstn_subset. exact Hz.
Qed.

End Ordering.



Lemma sortedb_map {A B} (f : A -> B) (lebA : A -> A -> bool)
    (lebB : B -> B -> bool) (l : list A) :
  (forall a b, lebB (f a) (f b) = lebA a b) ->
  sortedb lebB (map f l) = sortedb lebA l.
Proof.
  intros Hf. induction l as [|x r IH]; [reflexivity|].
  cbn. rewrite IH. f_equal.
  clear IH. induction r as [|y r IH]; [reflexivity|].
  cbn. rewrite Hf, IH. reflexivity.
Qed.

Lemma sql_compare_eq (a b : SqlNum) : Sql.compare a b = Eq -> a = b.
Proof.
  destruct a as [x|], b as [y|]; cbn; try discriminate; auto.
  intros H. apply Z.compare_eq in H. congruence.
Qed.

Lemma sql_compare_antisym (a b : SqlNum) :
  Sql.compare b a = CompOpp (Sql.compare a b).
Proof.
  destruct a as [x|], b as [y|]; cbn; auto. apply Z.compare_antisym.
Qed.

Lemma sql_compare_lt_trans (a b c : SqlNum) :
  Sql.compare a b = Lt -> Sql.compare b c = Lt -> Sql.compare a c = Lt.
Proof.
  destruct a as [x|], b as [y|], c as [z|]; cbn; try discriminate; auto.
  rewrite !Z.compare_lt_iff. lia.
Qed.

Lemma catalog_leb_total (a b : CourseRow) :
  catalog_leb a b = false -> catalog_leb b a = true.
Proof.
  unfold catalog_leb.
  rewrite (sql_compare_antisym (rating a) (rating b)).
  rewrite (sql_compare_antisym (enrollmentCount a) (enrollmentCount b)).
  destruct (Sql.compare (rating a) (rating b)); cbn; try discriminate; auto.
  destruct (Sql.compare (enrollmentCount a) (enrollmentCount b)); cbn;
    try discriminate; auto.
Qed.

Lemma catalog_leb_trans (a b c : CourseRow) :
  catalog_leb a b = true -> catalog_leb b c = true -> catalog_leb a c = true.
Proof.
  unfold catalog_leb.
  destruct (Sql.compare (rating a) (rating b)) eqn:Eab; try discriminate.
  - apply sql_compare_eq in Eab. rewrite Eab.
    destruct (Sql.compare (rating b) (rating c)); try discriminate; auto.
    destruct (Sql.compare (enrollmentCount a) (enrollmentCount b)) eqn:Fab;
      try discriminate; intros _.
    + apply sql_compare_eq in Fab. rewrite Fab. auto.
    + destruct (Sql.compare (enrollmentCount b) (enrollmentCount c)) eqn:Fbc;
        try discriminate; intros _.
      * apply sql_compare_eq in Fbc. rewrite <- Fbc, Fab. reflexivity.
      * rewrite (sql_compare_lt_trans _ _ _ Fab Fbc). reflexivity.
  - intros _.
    destruct (Sql.compare (rating b) (rating c)) eqn:Ebc; try discriminate.
    + apply sql_compare_eq in Ebc. rewrite <- Ebc, Eab. reflexivity.
    + rewrite (sql_compare_lt_trans _ _ _ Eab Ebc). reflexivity.
Qed.

(** ** Claims about the catalog tools *)



(** ** [LIKE] patterns *)






Lemma lower_append (a b : string) :
  Sql.lower (a ++ b) = (Sql.lower a ++ Sql.lower b)%string.
Proof.
  unfold Sql.lower. induction a as [|c a IH]; cbn; [reflexivity|].
  rewrite IH. reflexivity.
Qed.










(** ** The generation workflow *)

Lemma append_empty_r (s : string) : (s ++ EmptyString)%string = s.
Proof. induction s as [|c s IH]; cbn; [reflexivity | rewrite IH; reflexivity]. Qed.

Lemma append_assoc (a b c : string) :
  ((a ++ b) ++ c)%string = (a ++ (b ++ c))%string.
Proof. induction a as [|x a IH]; cbn; [reflexivity | rewrite IH; reflexivity]. Qed.

(** The gateway's stream always completes: the tool never throws. *)
Lemma fullStream_returns (events : list ModelEvent) (w : World) :
  exists chunks w', fullStream events w = (Returned chunks, w').
Proof.
  revert w. induction events as [|ev rest IH]; intros w.
  - do 2 eexists. reflexivity.
  - destruct ev as [d|a|]; cbn [fullStream]; unfold bind.
    + destruct (IH w) as (cs & w' & E). rewrite E. do 2 eexists. reflexivity.
    + destruct (createCourse_execute_returns a w) as (r & w1 & E1). rewrite E1.
      destruct (IH w1) as (cs & w' & E). rewrite E. do 2 eexists. reflexivity.
    + destruct (IH w) as (cs & w' & E). rewrite E. do 2 eexists. reflexivity.
Qed.

(** Without a tool call the stream touches nothing, and the loop only
    gathers the text. *)
Lemma fullStream_text_only (events : list ModelEvent) (w : World) :
  forallb (fun e => negb (is_call e)) events = true ->
  exists chunks,
    fullStream events w = (Returned chunks, w) /\
    forall st,
      fold_left collect_chunk chunks st =
      mkCollected (courseCreated st) (courseData st)
                  (aiResponse st ++ text_of events).
Proof.
  induction events as [|ev rest IH]; intros H.
  - exists []. split; [reflexivity|]. intros [c d t]. cbn.
    rewrite append_empty_r. reflexivity.
  - cbn in H. apply andb_true_iff in H. destruct H as [Hev Hrest].
    destruct (IH Hrest) as (cs & E & Hfold).
    destruct ev as [d|a|]; [| discriminate |]; cbn [fullStream]; unfold bind;
      rewrite E; eexists; (split; [reflexivity|]); intros st; cbn;
      rewrite Hfold; cbn; [rewrite append_assoc|]; reflexivity.
Qed.

Lemma collect_keeps_result (chunks : list Chunk) (st : Collected) :
  courseCreated st = true -> courseData st <> None ->
  courseCreated (fold_left collect_chunk chunks st) = true /\
  courseData (fold_left collect_chunk chunks st) <> None.
Proof.
  revert st. induction chunks as [|ch rest IH]; intros st Hc Hd; [auto|].
  cbn [fold_left]. apply IH.
  - destruct ch as [d|n|n r|]; cbn; auto.
    destruct (String.eqb n "createCourse"); auto.
  - destruct ch as [d|n|n r|]; cbn; auto.
    destruct (String.eqb n "createCourse"); cbn; [discriminate | auto].
Qed.

(** With a call of the tool the loop ends holding the tool's result. *)
Lemma fullStream_with_call (events : list ModelEvent) (w : World) :
  existsb is_call events = true ->
  exists chunks w',
    fullStream events w = (Returned chunks, w') /\
    forall st,
      courseCreated (fold_left collect_chunk chunks st) = true /\
      courseData (fold_left collect_chunk chunks st) <> None.
Proof.
  revert w. induction events as [|ev rest IH]; intros w H; [discriminate|].
  destruct ev as [d|a|]; cbn [fullStream]; unfold bind.
  - destruct (IH w H) as (cs & w' & E & Hfold). rewrite E.
    do 2 eexists. split; [reflexivity|]. intros st. cbn. apply Hfold.
  - destruct (createCourse_execute_returns a w) as (r & w1 & E1). rewrite E1.
    destruct (fullStream_returns rest w1) as (cs & w' & E). rewrite E.
    do 2 eexists. split; [reflexivity|]. intros st. cbn.
    apply collect_keeps_result; cbn; [reflexivity | discriminate].
  - destruct (IH w H) as (cs & w' & E & Hfold). rewrite E.
    do 2 eexists. split; [reflexivity|]. intros st. cbn. apply Hfold.
Qed.

(** C7, as the code has it: when the request is valid and the model's stream
    holds no call of the creation tool, the route leaves the world as it found
    it (no course row) and answers HTTP 500 with the body [{error: "Failed to
    create course", details: "AI did not call the createCourse tool",
    aiResponse, debugInfo: null}]; the body has no [success] member.  A run
    in which the tool was called never answers with [debugInfo: null]. *)
Theorem generateCourse_text_only (r : GenerateRequest)
    (p : string * option string) (events : list ModelEvent) (w : World) :
  generateCourseSchema_parse r = inr p ->
  forallb (fun e => negb (is_call e)) events = true ->
  generateCourse_route r events w =
    (mkResponse 500
       (body_not_created "Failed to create course" noToolCallDetails
                         (Js.trim (text_of events)) None), w) /\
  success_member (body (fst (generateCourse_route r events w))) = None /\
  (forall called,
     existsb is_call called = true ->
     success_member (body (fst (generateCourse_route r called w))) =
       Some true \/
     debugInfo_of (body (fst (generateCourse_route r called w))) <> None).
Proof.
  intros Hp Hno.
  assert (E : generateCourse_route r events w =
              (mkResponse 500
                 (body_not_created "Failed to create course" noToolCallDetails
                                   (Js.trim (text_of events)) None), w)).
  { unfold generateCourse_route. rewrite Hp.
    destruct (fullStream_text_only events w Hno) as (cs & E & Hfold).
    rewrite E. unfold collect. rewrite Hfold. reflexivity. }
  split; [exact E|]. split; [rewrite E; reflexivity|].
  intros called Hcall. unfold generateCourse_route. rewrite Hp.
  destruct (fullStream_with_call called w Hcall) as (cs & w' & Ec & Hfold).
  rewrite Ec. cbn [fst]. unfold collect, respond.
  destruct (Hfold (mkCollected false None EmptyString)) as [Hc Hd].
  rewrite Hc.
  destruct (courseData (fold_left collect_chunk cs _)) as [[c n m|e m]|];
    cbn; [left; reflexivity | right; discriminate | congruence].
Qed.

Lemma generateCourse_text_only_witness :
  generateCourse_route Sample.request [ev_text " Here is an outline. "]
                       Sample.world =
    (mkResponse 500
       (body_not_created "Failed to create course"
                         "AI did not call the createCourse tool"
                         "Here is an outline." None), Sample.world).
Proof.
  apply (generateCourse_text_only Sample.request
           ("Beginner course on HTTP caching", Some "i1")
           [ev_text " Here is an outline. "] Sample.world);
    reflexivity.
Defined.

(** C7, as stated, fails: the body of the text-only answer has no [success]
    member, so it does not carry [success: false]. *)
Lemma generateCourse_failure_has_no_success_member :
  http_status
    (fst (generateCourse_route Sample.request
            [ev_text " Here is an outline. "] Sample.world)) = 500 /\
  success_member
    (body (fst (generateCourse_route Sample.request
                  [ev_text " Here is an outline. "] Sample.world))) = None /\
  success_member
    (body (fst (generateCourse_route Sample.request
                  [ev_text " Here is an outline. "] Sample.world)))
    <> Some false.
Proof.
  split; [reflexivity|]. split; [reflexivity | discriminate].
Qed.

(** ** Statistics *)

(** C10: the route leaves the world as it found it and answers
    [aiGeneratedCourses: 0] with [totalCourses] the number of course rows,
    in every world, and so in the world any run of the generation route
    leaves behind. *)
Theorem stats_route_counts (w : World) :
  stats_route w =
    (mkResponse 200
       (stats_ok (List.length (courses (db w))) 0
                 "AI course generation is operational"), w) /\
  (forall r events,
     fst (stats_route (snd (generateCourse_route r events w))) =
     mkResponse 200
       (stats_ok
          (List.length
             (courses (db (snd (generateCourse_route r events w))))) 0
          "AI course generation is operational")).
Proof.
  assert (H : forall v,
             stats_route v =
             (mkResponse 200
                (stats_ok (List.length (courses (db v))) 0
                          "AI course generation is operational"), v)).
  { intros v. unfold stats_route, bind, read_db, ret. cbn.
    rewrite length_map. reflexivity. }
  split; [apply H|]. intros r events. rewrite H. reflexivity.
Qed.

(** After a generation that created a course the count is one more and
    [aiGeneratedCourses] is still 0. *)
Example stats_after_generation :
  fst (stats_route
         (snd (generateCourse_route Sample.request
                 [ev_text "Creating it."; ev_call_createCourse (Sample.args [])]
                 Sample.world))) =
  mkResponse 200 (stats_ok 4 0 "AI course generation is operational").
Proof. vm_compute. reflexivity. Qed.

(** * Further properties of the code *)

(** ** The tool's rows, draws and failures *)

Lemma getRandomThumbnail_in_set (w : World) :
  exists t,
    getRandomThumbnail w = (Returned (Some t), after_random w) /\
    In t COURSE_THUMBNAILS.
Proof.
  unfold getRandomThumbnail, bind, random_index, ret.
  assert (Hlt : drawn_index (List.length COURSE_THUMBNAILS) w <
                List.length COURSE_THUMBNAILS)
    by (apply drawn_index_lt; cbn; lia).
  destruct (nth_error COURSE_THUMBNAILS
              (drawn_index (List.length COURSE_THUMBNAILS) w)) as [t|] eqn:E.
  - exists t. split; [reflexivity|]. eapply nth_error_In; eassumption.
  - apply nth_error_None in E. lia.
Qed.

Lemma course_values_thumbnail (a : CreateCourseArgs) (w w1 : World)
    (row : CourseRow) :
  course_values a w = (Returned row, w1) ->
  exists t, thumbnail row = Some t /\ In t COURSE_THUMBNAILS.
Proof.
  unfold course_values, bind. intros H.
  destruct (getRandomInstructor w) as [[id|e] wa]; [|discriminate].
  cbn [createId] in H.
  destruct (getRandomThumbnail_in_set (after_ids 1 wa)) as (t & Et & Hin).
  rewrite Et in H. cbn in H. inversion H; subst. exists t. auto.
Qed.

(** The success inversion, with the lesson rows named by the run that built
    them. *)
Lemma createCourse_success_rows (a : CreateCourseArgs) (w w' : World)
    (c : CourseRow) (n : nat) (m : string) :
  createCourse_execute a w = (Returned (ToolOk c n m), w') ->
  exists w1 rows,
    course_values a w = (Returned c, w1) /\
    lessonsToInsert (course_id c) 0 (arg_lessons a) (store_course c w1) =
      (Returned rows,
       after_ids (2 * List.length (arg_lessons a)) (store_course c w1)) /\
    w' = store_lessons rows
           (after_ids (2 * List.length (arg_lessons a)) (store_course c w1)).
Proof.
  intros H. pose proof (createCourse_execute_cases a w) as Hc.
  destruct (course_values a w) as [[row|e] w1] eqn:Ev.
  - destruct (courseCheck (env w) (db w) row) as [|e|] eqn:Ek;
      try (rewrite Hc in H; discriminate).
    destruct Hc as (rows & Hl & _ & _ & _ & _ & Hrun). cbv zeta in Hrun.
    assert (Hok : createCourse_execute a w =
                  (Returned
                     (ToolOk row (List.length (arg_lessons a))
                        (successMessage (arg_title a)
                                        (List.length (arg_lessons a)))),
                   store_lessons rows
                     (after_ids (2 * List.length (arg_lessons a))
                                (store_course row w1)))).
    { destruct (arg_lessons a) as [|l rest]; [exact Hrun|].
      destruct (lessonCheck (env w) _ rows); [|exact Hrun].
      rewrite Hrun in H. discriminate. }
    rewrite Hok in H. inversion H; subst.
    exists w1, rows. auto.
  - destruct Hc as [_ Hc]. rewrite Hc in H. discriminate.
Qed.

(** X1: the thumbnail of a created course is always one of the eight seed
    images: the drawn index never falls outside the table, so the column is
    never left undefined. *)
Theorem createCourse_thumbnail_from_set (a : CreateCourseArgs) (w w' : World)
    (c : CourseRow) (n : nat) (m : string) :
  createCourse_execute a w = (Returned (ToolOk c n m), w') ->
  exists t, thumbnail c = Some t /\ In t COURSE_THUMBNAILS.
Proof.
  intros H.
  destruct (createCourse_success_rows a w w' c n m H) as (w1 & rows & Hv & _).
  eapply course_values_thumbnail. exact Hv.
Qed.

Lemma createCourse_thumbnail_from_set_witness :
  exists t, thumbnail Sample.created = Some t /\ In t COURSE_THUMBNAILS.
Proof.
  apply (createCourse_thumbnail_from_set (Sample.args []) Sample.world
           (snd (createCourse_execute (Sample.args []) Sample.world))
           Sample.created 0 (successMessage "HTTP  Caching: 101!" 0)).
  vm_compute. reflexivity.
Defined.

(** X2: when the database refuses the course row, or stores nothing and
    returns no row, the tool reports the failure with the database's message
    (or the no-data message), stores no row, and never prepares the lessons:
    no further identifier is drawn. *)
Theorem createCourse_course_insert_refused (a : CreateCourseArgs)
    (w w1 : World) (row : CourseRow) :
  course_values a w = (Returned row, w1) ->
  courseCheck (env w) (db w) row <> Accepted ->
  createCourse_execute a w =
    (Returned
       (ToolFail "Failed to create course"
          match courseCheck (env w) (db w) row with
          | Rejected e => errorMessage e
          | _ => noDataMessage
          end), w1) /\
  db w1 = db w /\ idCalls w1 = S (idCalls w).
Proof.
  intros Hv Hne. pose proof (createCourse_execute_cases a w) as Hc.
  rewrite Hv in Hc.
  destruct (course_values_inv a w w1 row Hv)
    as (_ & _ & _ & _ & _ & _ & Hdb & _ & Hid).
  destruct (courseCheck (env w) (db w) row); [congruence| |]; auto.
Qed.

Lemma createCourse_course_insert_refused_witness :
  exists w1,
    createCourse_execute (Sample.args Sample.three_lessons)
                         Demo.world_course_refused =
      (Returned
         (ToolFail "Failed to create course"
                   "duplicate key value violates unique constraint"), w1) /\
    db w1 = db Demo.world_course_refused /\ idCalls w1 = 1.
Proof.
  eexists.
  apply (createCourse_course_insert_refused
           (Sample.args Sample.three_lessons) Demo.world_course_refused
           _ Sample.created).
  - vm_compute. reflexivity.
  - vm_compute. discriminate.
Defined.

(** X3: the tool never throws, never touches the user table or the
    environment, and only appends.  A success appends the course row and one
    lesson row per input lesson.  A failure always carries the error
    ["Failed to create course"], appends no lesson row, and leaves a course
    row behind only when its message names lesson insertion. *)
Theorem createCourse_frame (a : CreateCourseArgs) (w : World) :
  exists r w',
    createCourse_execute a w = (Returned r, w') /\
    env w' = env w /\ users (db w') = users (db w) /\
    match r with
    | ToolOk c n _ =>
        courses (db w') = courses (db w) ++ [c] /\
        exists rows,
          lessons (db w') = lessons (db w) ++ rows /\ List.length rows = n
    | ToolFail e m =>
        e = "Failed to create course" /\
        lessons (db w') = lessons (db w) /\
        (courses (db w') = courses (db w) \/
         exists c,
           courses (db w') = courses (db w) ++ [c] /\
           starts_with "Failed to create lessons: " m = true)
    end.
Proof.
  pose proof (createCourse_execute_cases a w) as Hc.
  destruct (course_values a w) as [[row|e] w1] eqn:Ev.
  - destruct (course_values_inv a w w1 row Ev)
      as (_ & _ & _ & _ & _ & _ & Hdb & Henv & _).
    destruct (courseCheck (env w) (db w) row) as [|e|].
    + destruct Hc as (rows & _ & Hd & _ & _ & _ & Hrun). cbv zeta in Hrun.
      assert (Hlen : List.length rows = List.length (arg_lessons a))
        by (rewrite <- Hd; symmetry; apply length_map).
      destruct (arg_lessons a) as [|l rest] eqn:El.
      * do 2 eexists. split; [exact Hrun|].
        cbn [env db users courses lessons store_lessons after_ids
                 store_course].
        rewrite Hdb, Henv. repeat split. exists rows. auto.
      * destruct (lessonCheck (env w) _ rows) as [e|].
        -- do 2 eexists. split; [exact Hrun|].
           cbn [env db users courses lessons after_ids store_course].
           rewrite Hdb, Henv. repeat split. right. exists row.
           split; reflexivity.
        -- do 2 eexists. split; [exact Hrun|].
           cbn [env db users courses lessons store_lessons after_ids
                    store_course].
           rewrite Hdb, Henv. repeat split. exists rows. auto.
    + do 2 eexists. split; [exact Hc|]. rewrite Hdb, Henv. repeat split.
      left. reflexivity.
    + do 2 eexists. split; [exact Hc|]. rewrite Hdb, Henv. repeat split.
      left. reflexivity.
  - destruct Hc as [_ Hc]. do 2 eexists. split; [exact Hc|].
    repeat split. left. reflexivity.
Qed.

(** The identifiers of the lesson rows are among the draws of the run, and
    pairwise distinct when those draws are. *)
Lemma lessonsToInsert_ids (cid : string) (ls : list LessonInput) :
  forall (index : nat) (w : World) (rows : list LessonRow) (w' : World),
  lessonsToInsert cid index ls w = (Returned rows, w') ->
  NoDup (map (cuid (env w)) (seq (idCalls w) (2 * List.length ls))) ->
  NoDup (map lesson_id rows) /\
  incl (map lesson_id rows)
       (map (cuid (env w)) (seq (idCalls w) (2 * List.length ls))).
Proof.
  induction ls as [|l rest IH]; intros index w rows w' Hrun Hnd.
  - cbn in Hrun. inversion Hrun; subst. cbn. split; [constructor|].
    intros x Hx. destruct Hx.
  - cbn [lessonsToInsert] in Hrun. unfold bind in Hrun.
    cbn [createId env db randomCalls idCalls after_ids] in Hrun.
    destruct (lessonsToInsert cid (S index) rest
                (after_ids 1 (after_ids 1 w))) as [[rows'|e] w2] eqn:Er;
      [|discriminate].
    inversion Hrun; subst rows w'; clear Hrun.
    replace (2 * List.length (l :: rest))
      with (S (S (2 * List.length rest))) in * by (cbn; lia).
    cbn [seq map] in Hnd |- *.
    apply NoDup_cons_iff in Hnd. destruct Hnd as [Hx Hnd1].
    apply NoDup_cons_iff in Hnd1. destruct Hnd1 as [Hy Hnd2].
    specialize (IH (S index) (after_ids 1 (after_ids 1 w)) rows' w2 Er).
    cbn [env idCalls after_ids] in IH.
    replace (1 + (1 + idCalls w)) with (S (S (idCalls w))) in IH by lia.
    destruct (IH Hnd2) as [Hn Hi].
    split.
    + cbn [lesson_id]. constructor; [|exact Hn].
      intros Hin. apply Hx. apply in_cons. apply Hi. exact Hin.
    + intros z [<-|Hz]; [left; reflexivity|].
      apply in_cons, in_cons. apply Hi. exact Hz.
Qed.

(** X4: when the identifiers a successful run draws are pairwise distinct, so
    are the primary keys it writes: the lesson ids differ from each other and
    from the course id.  The run draws one identifier for the course and two
    per lesson. *)
Theorem createCourse_distinct_ids (a : CreateCourseArgs) (w w' : World)
    (c : CourseRow) (n : nat) (m : string) :
  createCourse_execute a w = (Returned (ToolOk c n m), w') ->
  NoDup (map (cuid (env w))
             (seq (idCalls w) (1 + 2 * List.length (arg_lessons a)))) ->
  idCalls w' = idCalls w + 1 + 2 * List.length (arg_lessons a) /\
  exists rows,
    lessons (db w') = lessons (db w) ++ rows /\
    NoDup (course_id c :: map lesson_id rows).
Proof.
  intros H Hnd.
  destruct (createCourse_success_rows a w w' c n m H)
    as (w1 & rows & Hv & Hl & ->).
  destruct (course_values_inv a w w1 c Hv)
    as (_ & Hid & _ & _ & _ & _ & Hdb & Henv & Hk).
  cbn [idCalls db lessons store_lessons after_ids store_course].
  split; [lia|]. exists rows. rewrite Hdb. split; [reflexivity|].
  cbn [seq map Nat.add] in Hnd.
  apply NoDup_cons_iff in Hnd. destruct Hnd as [Hx Hnd1].
  apply lessonsToInsert_ids in Hl.
  - cbn [env idCalls store_course] in Hl. rewrite Henv, Hk in Hl.
    destruct Hl as [Hn Hi]. constructor; [|exact Hn].
    rewrite Hid. intros Hin. apply Hx. apply Hi. exact Hin.
  - cbn [env idCalls store_course]. rewrite Henv, Hk. exact Hnd1.
Qed.

Lemma createCourse_distinct_ids_witness :
  exists w' rows,
    createCourse_execute (Sample.args Sample.three_lessons) Sample.world =
      (Returned (ToolOk Sample.created 3
                        (successMessage "HTTP  Caching: 101!" 3)), w') /\
    idCalls w' = 7 /\
    lessons (db w') = lessons (db Sample.world) ++ rows /\
    NoDup (course_id Sample.created :: map lesson_id rows).
Proof.
  assert (E : createCourse_execute (Sample.args Sample.three_lessons)
                                   Sample.world =
              (Returned (ToolOk Sample.created 3
                                (successMessage "HTTP  Caching: 101!" 3)),
               snd (createCourse_execute (Sample.args Sample.three_lessons)
                                         Sample.world)))
    by (vm_compute; reflexivity).
  destruct (createCourse_distinct_ids _ _ _ _ _ _ E)
    as (Hk & rows & Hl & Hn).
  - vm_compute. repeat constructor; cbn; intuition discriminate.
  - eexists. exists rows. split; [exact E|]. auto.
Defined.

(** ** Slugs *)

Lemma slug_char_plain (c : ascii) :
  Js.is_slug_char c = true -> Js.is_upper c = false /\ Js.is_space c = false.
Proof. destruct c as [[] [] [] [] [] [] [] []]; cbv; intuition discriminate. Qed.

Lemma lower_char_idempotent (c : ascii) :
  Js.lower_char (Js.lower_char c) = Js.lower_char c.
Proof. destruct c as [[] [] [] [] [] [] [] []]; reflexivity. Qed.

Lemma toLowerCase_idempotent (s : string) :
  Js.toLowerCase (Js.toLowerCase s) = Js.toLowerCase s.
Proof.
  induction s as [|c s IH]; cbn; [reflexivity|].
  rewrite lower_char_idempotent, IH. reflexivity.
Qed.

Lemma toLowerCase_length (s : string) :
  String.length (Js.toLowerCase s) = String.length s.
Proof. induction s as [|c s IH]; cbn; auto. Qed.

Lemma replace_ws_runs_length (s : string) :
  forall b, String.length (Js.replace_ws_runs b s) <= String.length s.
Proof.
  induction s as [|c s IH]; intros b; cbn; [lia|].
  destruct (Js.is_space c); [destruct b|]; cbn;
    [specialize (IH true) | specialize (IH true) | specialize (IH false)]; lia.
Qed.

Lemma keep_slug_chars_length (s : string) :
  String.length (Js.keep_slug_chars s) <= String.length s.
Proof.
  induction s as [|c s IH]; cbn; [lia|].
  destruct (Js.is_slug_char c); cbn; lia.
Qed.

(** A string of slug characters is its own slug. *)
Lemma baseSlug_fixed (s : string) :
  all_chars Js.is_slug_char s = true -> baseSlug s = s.
Proof.
  unfold baseSlug. intros H.
  assert (Hl : Js.toLowerCase s = s).
  { induction s as [|c s IH]; [reflexivity|].
    cbn in H. apply andb_true_iff in H. destruct H as [Hc Hs].
    cbn. unfold Js.lower_char.
    destruct (slug_char_plain c Hc) as [-> _]. rewrite (IH Hs). reflexivity. }
  rewrite Hl.
  assert (Hw : forall b, Js.replace_ws_runs b s = s).
  { clear Hl. induction s as [|c s IH]; intros b; [reflexivity|].
    cbn in H. apply andb_true_iff in H. destruct H as [Hc Hs].
    cbn. destruct (slug_char_plain c Hc) as [_ ->]. rewrite (IH Hs).
    reflexivity. }
  rewrite Hw. clear Hl Hw.
  induction s as [|c s IH]; [reflexivity|].
  cbn in H. apply andb_true_iff in H. destruct H as [Hc Hs].
  cbn. rewrite Hc, (IH Hs). reflexivity.
Qed.

Lemma baseSlug_length (t : string) :
  String.length (baseSlug t) <= String.length t.
Proof.
  unfold baseSlug.
  pose proof (keep_slug_chars_length
                (Js.replace_ws_runs false (Js.toLowerCase t))).
  pose proof (replace_ws_runs_length (Js.toLowerCase t) false).
  pose proof (toLowerCase_length t). lia.
Qed.

(** X5: slug normalisation is idempotent, blind to letter case, and never
    longer than the title it is made from. *)
Theorem baseSlug_normal_form (t : string) :
  baseSlug (baseSlug t) = baseSlug t /\
  baseSlug (Js.toLowerCase t) = baseSlug t /\
  String.length (baseSlug t) <= String.length t.
Proof.
  split; [|split].
  - apply baseSlug_fixed. apply baseSlug_url_safe.
  - unfold baseSlug. rewrite toLowerCase_idempotent. reflexivity.
  - apply baseSlug_length.
Qed.

Lemma all_chars_append (p : ascii -> bool) (a b : string) :
  all_chars p (a ++ b) = all_chars p a && all_chars p b.
Proof.
  induction a as [|c a IH]; cbn; [reflexivity|].
  rewrite IH. apply andb_assoc.
Qed.

Lemma append_length (a b : string) :
  String.length (a ++ b) = String.length a + String.length b.
Proof. induction a as [|c a IH]; cbn; [reflexivity | rewrite IH; reflexivity]. Qed.

Lemma substring_length_le (s : string) :
  forall k j, String.length (substring k j s) <= j.
Proof.
  induction s as [|c s IH]; intros [|k] [|j]; cbn; try lia.
  - specialize (IH 0 j). lia.
  - apply IH.
  - apply IH.
Qed.

(** X6: the slug of a created course is URL-safe, made of [a-z], [0-9] and
    [-] only, whenever the last 8 characters of its identifier are; and it is
    at most 9 characters longer than the title. *)
Theorem createCourse_slug_url_safe (a : CreateCourseArgs) (w w' : World)
    (c : CourseRow) (n : nat) (m : string) :
  createCourse_execute a w = (Returned (ToolOk c n m), w') ->
  all_chars Js.is_slug_char (Js.slice_last 8 (course_id c)) = true ->
  all_chars Js.is_slug_char (slug c) = true /\
  String.length (slug c) <= String.length (arg_title a) + 9.
Proof.
  intros H Hid.
  destruct (createCourse_success_rows a w w' c n m H) as (w1 & rows & Hv & _).
  destruct (course_values_inv a w w1 c Hv) as (_ & _ & Hs & _).
  rewrite Hs. split.
  - rewrite !all_chars_append, baseSlug_url_safe, Hid. reflexivity.
  - rewrite !append_length.
    pose proof (baseSlug_length (arg_title a)) as Hlen.
    pose proof (substring_length_le (course_id c)
                  (String.length (course_id c) - 8) 8) as Ht.
    unfold Js.slice_last.
    cbn [String.length]. lia.
Qed.

Lemma createCourse_slug_url_safe_witness :
  all_chars Js.is_slug_char (slug Sample.created) = true /\
  String.length (slug Sample.created) <=
    String.length (arg_title (Sample.args [])) + 9.
Proof.
  apply (createCourse_slug_url_safe (Sample.args []) Sample.world
           (snd (createCourse_execute (Sample.args []) Sample.world))
           Sample.created 0 (successMessage "HTTP  Caching: 101!" 0)).
  - vm_compute. reflexivity.
  - vm_compute. reflexivity.
Defined.

(** ** The catalog tools *)





(** The rows a search selects and orders, before the limit. *)
Lemma searchCourses_rows (query category : option string) (lvl : option Level)
    (limit : option Z) (w : World) :
  exists r,
    searchCourses_execute query category lvl limit w = (Returned r, w) /\
    search_courses r =
      firstn (Z.to_nat (or_default 20%Z limit))
        (map summary_of
           (Sql.order_by catalog_leb
              (sql_where
                 (if (0 <? List.length
                             (search_conditions query category lvl))%nat
                  then Some (c_and (search_conditions query category lvl))
                  else None) (courses (db w))))).
Proof.
  unfold searchCourses_execute, try_catch, bind, read_db, Sql.limit.
  destruct (or_default 20%Z limit <? 0)%Z eqn:El.
  - eexists. split; [reflexivity|]. cbn.
    apply Z.ltb_lt in El. replace (Z.to_nat _) with 0 by lia. reflexivity.
  - eexists. split; reflexivity.
Qed.


(** X8: a search answers its courses in the catalog order: ascending rating,
    then ascending enrollment count. *)
Theorem searchCourses_sorted (query category : option string)
    (lvl : option Level) (limit : option Z) (w : World) :
  exists r,
    searchCourses_execute query category lvl limit w = (Returned r, w) /\
    sortedb ascending_leb (search_courses r) = true.
Proof.
  destruct (searchCourses_rows query category lvl limit w) as (r & E & Hr).
  exists r. split; [exact E|]. rewrite Hr.
  apply sortedb_firstn.
  rewrite (sortedb_map summary_of catalog_leb) by reflexivity.
  apply sortedb_order_by; [exact catalog_leb_total | exact catalog_leb_trans].
Qed.




Lemma lower_truthy (q : string) : Js.truthy (Sql.lower q) = Js.truthy q.
Proof. destruct q; reflexivity. Qed.

Lemma ilike_pattern_case (v q1 q2 : string) :
  Sql.lower q1 = Sql.lower q2 ->
  Sql.ilike v (wrap_percent q1) = Sql.ilike v (wrap_percent q2).
Proof.
  intros H. unfold Sql.ilike, wrap_percent.
  rewrite !lower_append, H. reflexivity.
Qed.

(** X10: the letter case of the query does not matter: two queries that
    differ only in case select the same courses, whatever the other
    arguments. *)
Theorem searchCourses_query_case (q1 q2 : string) (cat : option string)
    (lvl : option Level) (limit : option Z) (w : World) :
  Sql.lower q1 = Sql.lower q2 ->
  exists r1 r2,
    searchCourses_execute (Some q1) cat lvl limit w = (Returned r1, w) /\
    searchCourses_execute (Some q2) cat lvl limit w = (Returned r2, w) /\
    search_courses r1 = search_courses r2.
Proof.
  intros H.
  destruct (searchCourses_rows (Some q1) cat lvl limit w)
    as (r1 & E1 & H1).
  destruct (searchCourses_rows (Some q2) cat lvl limit w)
    as (r2 & E2 & H2).
  exists r1, r2. split; [exact E1|]. split; [exact E2|].
  rewrite H1, H2. do 3 f_equal.
  assert (Ht : Js.truthy q1 = Js.truthy q2)
    by (rewrite <- (lower_truthy q1), <- (lower_truthy q2), H; reflexivity).
  unfold search_conditions. rewrite Ht.
  destruct (Js.truthy q2); [|reflexivity].
  cbn [app List.length Nat.ltb Nat.leb sql_where].
  apply filter_ext. intros c. cbn [holds forallb existsb column].
  rewrite (ilike_pattern_case (title c) q1 q2 H),
          (ilike_pattern_case (description c) q1 q2 H),
          (ilike_pattern_case (category c) q1 q2 H).
  reflexivity.
Qed.

Lemma searchCourses_query_case_witness :
  exists r1 r2,
    searchCourses_execute (Some "WEB") None None None Sample.world =
      (Returned r1, Sample.world) /\
    searchCourses_execute (Some "Web") None None None Sample.world =
      (Returned r2, Sample.world) /\
    search_courses r1 = search_courses r2.
Proof.
  apply (searchCourses_query_case "WEB" "Web" None None None Sample.world).
  reflexivity.
Defined.

(** ** The lesson tool *)



Lemma getLessons_rows (courseId query : option string) (w : World) :
  getLessons_execute courseId query w =
    (Returned
       (LessonsOk
          (firstn 20
             (map lesson_summary_of
                (Sql.order_by lesson_leb
                   (lesson_where
                      (if (0 <? List.length
                                  (lesson_conditions courseId query))%nat
                       then Some (l_and (lesson_conditions courseId query))
                       else None) (lessons (db w))))))
          (List.length
             (firstn 20
                (map lesson_summary_of
                   (Sql.order_by lesson_leb
                      (lesson_where
                         (if (0 <? List.length
                                     (lesson_conditions courseId query))%nat
                          then Some (l_and (lesson_conditions courseId query))
                          else None) (lessons (db w)))))))
          courseId query), w).
Proof. reflexivity. Qed.




(** ** From creation to the catalog and the lesson list *)

Lemma order_by_sorted {A} (leb : A -> A -> bool) (l : list A) :
  sortedb leb l = true -> Sql.order_by leb l = l.
Proof.
  induction l as [|x r IH]; [reflexivity|].
  cbn. intros H. apply andb_true_iff in H. destruct H as [Hx Hr].
  rewrite (IH Hr). destruct r as [|y r']; [reflexivity|].
  cbn in Hx |- *. apply andb_true_iff in Hx. destruct Hx as [-> _].
  reflexivity.
Qed.

Lemma sortedb_seq (a n : nat) : sortedb Nat.leb (seq a n) = true.
Proof.
  revert a. induction n as [|n IH]; intros a; [reflexivity|].
  cbn. rewrite IH, andb_true_r. apply forallb_forall.
  intros x Hx. apply in_seq in Hx. apply Nat.leb_le. lia.
Qed.

Lemma filter_none {A} (p : A -> bool) (l : list A) :
  forallb (fun x => negb (p x)) l = true -> filter p l = [].
Proof.
  induction l as [|x r IH]; [reflexivity|].
  cbn. intros H. apply andb_true_iff in H. destruct H as [Hx Hr].
  apply negb_true_iff in Hx. rewrite Hx. auto.
Qed.

Lemma filter_all {A} (p : A -> bool) (l : list A) :
  Forall (fun x => p x = true) l -> filter p l = l.
Proof.
  induction 1 as [|x r Hx _ IH]; [reflexivity|].
  cbn. rewrite Hx, IH. reflexivity.
Qed.

(** X12: creation followed by the lesson tool is a round trip.  When the new
    course's id is not empty, no earlier lesson row carries it and at most 20
    lessons were supplied, asking the lesson tool for that course returns
    exactly the supplied lessons, in input order, at positions 1..N, the
    first one free. *)
Theorem createCourse_then_getLessons (a : CreateCourseArgs) (w w' : World)
    (c : CourseRow) (n : nat) (m : string) :
  createCourse_execute a w = (Returned (ToolOk c n m), w') ->
  Js.truthy (course_id c) = true ->
  forallb (fun r => negb (String.eqb (lesson_courseId r) (course_id c)))
          (lessons (db w)) = true ->
  n <= 20 ->
  exists l,
    getLessons_execute (Some (course_id c)) None w' =
      (Returned (LessonsOk l n (Some (course_id c)) None), w') /\
    map ls_title l = map in_title (arg_lessons a) /\
    map ls_order l = seq 1 n /\
    map ls_isFree l = map (fun p => (p =? 1)%nat) (seq 1 n).
Proof.
  intros H Hid Hold Hn.
  destruct (createCourse_success_inv a w w' c n m H)
    as (w1 & rows & Hv & _ & Hlen & _ & Hd & Ho & Hf & Hc & ->).
  destruct (course_values_inv a w w1 c Hv)
    as (_ & _ & _ & _ & _ & _ & Hdb & _).
  rewrite getLessons_rows.
  unfold lesson_conditions. rewrite Hid.
  cbn [app List.length Nat.ltb Nat.leb lesson_where db lessons
           store_lessons after_ids store_course].
  rewrite Hdb, filter_app.
  assert (Hp : forall r,
             lesson_holds (l_and [l_eq_courseId (course_id c)]) r =
             String.eqb (lesson_courseId r) (course_id c))
    by (intros r; cbn; apply andb_true_r).
  rewrite (filter_ext _ _ Hp (lessons (db w))), (filter_ext _ _ Hp rows).
  rewrite (filter_none _ _ Hold). cbn [app].
  rewrite filter_all
    by (eapply Forall_impl; [|exact Hc]; cbn; intros r Hr;
        apply String.eqb_eq; exact Hr).
  assert (Hs : sortedb lesson_leb rows = true).
  { rewrite <- (sortedb_map lesson_order lesson_leb Nat.leb) by reflexivity.
    rewrite Ho. apply sortedb_seq. }
  rewrite (order_by_sorted _ _ Hs).
  assert (Hrows : List.length rows = n)
    by (rewrite <- (length_map lesson_order), Ho; apply length_seq).
  rewrite firstn_all2 by (rewrite length_map; lia).
  eexists. split; [rewrite length_map, Hrows; reflexivity|].
  rewrite !map_map. cbn [lesson_summary_of ls_title ls_order ls_isFree].
  split; [|split].
  - rewrite <- Hd, map_map. reflexivity.
  - exact Ho.
  - rewrite <- isFree_by_position. exact Hf.
Qed.

Lemma createCourse_then_getLessons_witness :
  exists w' l,
    createCourse_execute (Sample.args Sample.three_lessons)
                         Demo.world_with_lessons =
      (Returned (ToolOk Sample.created 3
                        (successMessage "HTTP  Caching: 101!" 3)), w') /\
    getLessons_execute (Some (course_id Sample.created)) None w' =
      (Returned (LessonsOk l 3 (Some (course_id Sample.created)) None), w') /\
    map ls_title l = ["Intro"; "Cache-Control"; "ETags"] /\
    map ls_order l = [1; 2; 3].
Proof.
  assert (E : createCourse_execute (Sample.args Sample.three_lessons)
                                   Demo.world_with_lessons =
              (Returned (ToolOk Sample.created 3
                                (successMessage "HTTP  Caching: 101!" 3)),
               snd (createCourse_execute (Sample.args Sample.three_lessons)
                                         Demo.world_with_lessons)))
    by (vm_compute; reflexivity).
  destruct (createCourse_then_getLessons _ _ _ _ _ _ E)
    as (l & El & Ht & Ho & _).
  - reflexivity.
  - vm_compute. reflexivity.
  - lia.
  - eexists. exists l. split; [exact E|]. split; [exact El|].
    split; [exact Ht | exact Ho].
Defined.



(** ** The generation route *)

(** A run of the tool only appends, and at most one course row. *)
Lemma createCourse_grows (a : CreateCourseArgs) (w w' : World)
    (r : ToolResult) :
  createCourse_execute a w = (Returned r, w') ->
  users (db w') = users (db w) /\
  exists cs ls,
    courses (db w') = courses (db w) ++ cs /\
    lessons (db w') = lessons (db w) ++ ls /\
    List.length cs <= 1.
Proof.
  intros H. pose proof (createCourse_execute_cases a w) as Hc.
  destruct (course_values a w) as [[row|e] w1] eqn:Ev.
  - destruct (course_values_inv a w w1 row Ev)
      as (_ & _ & _ & _ & _ & _ & Hdb & _).
    destruct (courseCheck (env w) (db w) row) as [|e|].
    + destruct Hc as (rows & _ & _ & _ & _ & _ & Hrun). cbv zeta in Hrun.
      destruct (arg_lessons a) as [|l rest];
        [|destruct (lessonCheck (env w) _ rows)];
        rewrite Hrun in H; inversion H; subst;
        cbn [db users courses lessons store_lessons after_ids store_course];
        rewrite Hdb; (split; [reflexivity|]).
      * exists [row], rows. auto.
      * exists [row], []. rewrite app_nil_r. auto.
      * exists [row], rows. auto.
    + rewrite Hc in H. inversion H; subst. rewrite Hdb.
      split; [reflexivity|]. exists [], []. rewrite !app_nil_r. auto.
    + rewrite Hc in H. inversion H; subst. rewrite Hdb.
      split; [reflexivity|]. exists [], []. rewrite !app_nil_r. auto.
  - destruct Hc as [_ Hc]. rewrite Hc in H. inversion H; subst.
    split; [reflexivity|]. exists [], []. rewrite !app_nil_r. auto.
Qed.

Lemma createCourse_success_row (a : CreateCourseArgs) (w w' : World)
    (c : CourseRow) (n : nat) (m : string) :
  createCourse_execute a w = (Returned (ToolOk c n m), w') ->
  In c (courses (db w')) /\ status c = "published" /\ price c = "0".
Proof.
  intros H.
  destruct (createCourse_success_rows a w w' c n m H)
    as (w1 & rows & Hv & _ & ->).
  destruct (course_values_inv a w w1 c Hv)
    as (_ & _ & _ & _ & Hp & Hs & _).
  cbn [db courses store_lessons after_ids store_course].
  split; [|auto]. apply in_or_app. right. left. reflexivity.
Qed.

(** What a completed stream leaves behind. *)
Lemma fullStream_grows (events : list ModelEvent) :
  forall (w w' : World) (chunks : list Chunk),
  fullStream events w = (Returned chunks, w') ->
  users (db w') = users (db w) /\
  (exists cs ls,
     courses (db w') = courses (db w) ++ cs /\
     lessons (db w') = lessons (db w) ++ ls /\
     List.length cs <= count_calls events) /\
  (forall name c n m,
     In (tool_result name (ToolOk c n m)) chunks ->
     In c (courses (db w')) /\ status c = "published" /\ price c = "0").
Proof.
  induction events as [|ev rest IH]; intros w w' chunks H.
  - cbn in H. inversion H; subst. split; [reflexivity|]. split.
    + exists [], []. rewrite !app_nil_r. cbn. auto.
    + intros name c n m [].
  - destruct ev as [d|a|]; cbn [fullStream] in H; unfold bind in H.
    + destruct (fullStream rest w) as [[cs0|e] w0] eqn:E; [|discriminate].
      inversion H; subst. destruct (IH _ _ _ E) as (Hu & Hg & Hr).
      split; [exact Hu|]. split; [exact Hg|].
      intros name c n m [Hin|Hin]; [discriminate | eauto].
    + destruct (createCourse_execute a w) as [[r|e] w1] eqn:E1; [|discriminate].
      destruct (fullStream rest w1) as [[cs0|e] w0] eqn:E; [|discriminate].
      inversion H; subst.
      destruct (IH _ _ _ E) as (Hu & (cs & ls & Hc & Hl & Hn) & Hr).
      destruct (createCourse_grows _ _ _ _ E1)
        as (Hu1 & cs1 & ls1 & Hc1 & Hl1 & Hn1).
      split; [congruence|]. split.
      * exists (cs1 ++ cs), (ls1 ++ ls).
        rewrite Hc, Hc1, Hl, Hl1, !app_assoc, length_app.
        unfold count_calls in *. cbn [filter is_call List.length].
        repeat split; auto. lia.
      * intros name c n m [Hin|[Hin|Hin]]; [discriminate| |eauto].
        inversion Hin; subst.
        destruct (createCourse_success_row _ _ _ _ _ _ E1) as (Hi & Hs & Hp).
        split; [|auto]. rewrite Hc. apply in_or_app. left. exact Hi.
    + destruct (fullStream rest w) as [[cs0|e] w0] eqn:E; [|discriminate].
      inversion H; subst. destruct (IH _ _ _ E) as (Hu & Hg & Hr).
      split; [exact Hu|]. split; [exact Hg|].
      intros name c n m [Hin|Hin]; [discriminate | eauto].
Qed.

Lemma collect_data_source (chunks : list Chunk) :
  forall (st : Collected) (r : ToolResult),
  courseData (fold_left collect_chunk chunks st) = Some r ->
  courseData st = Some r \/ exists name, In (tool_result name r) chunks.
Proof.
  induction chunks as [|ch rest IH]; intros st r H; [left; exact H|].
  cbn [fold_left] in H. destruct (IH _ _ H) as [Hst|(name & Hin)].
  - destruct ch as [d|nm|nm r0|]; cbn in Hst; auto.
    destruct (String.eqb nm "createCourse"); cbn in Hst; auto.
    inversion Hst; subst. right. exists nm. left. reflexivity.
  - right. exists name. right. exact Hin.
Qed.


(** X15: a 200 answer always names a course row that is in the course table
    when the route returns, published and priced ["0"]; and the model did
    call the tool. *)
Theorem generateCourse_success_persisted (r : GenerateRequest)
    (events : list ModelEvent) (w w' : World) (course : CourseRow)
    (message ai : string) :
  generateCourse_route r events w =
    (mkResponse 200 (body_created course message ai), w') ->
  In course (courses (db w')) /\
  status course = "published" /\ price course = "0" /\
  existsb is_call events = true.
Proof.
  unfold generateCourse_route. intros H.
  destruct (generateCourseSchema_parse r) as [issues|p]; [discriminate|].
  destruct (fullStream events w) as [[chunks|e] w1] eqn:Es; [|discriminate].
  inversion H as [[Hr Hw]]; subst w1. clear H.
  unfold respond in Hr.
  destruct (courseCreated (collect chunks)) eqn:Ecc; [|discriminate].
  destruct (courseData (collect chunks)) as [[c n m|e m]|] eqn:Ed;
    try discriminate.
  inversion Hr; subst; clear Hr.
  unfold collect in Ed. apply collect_data_source in Ed.
  destruct Ed as [Ed|(name & Hin)]; [discriminate|].
  destruct (fullStream_grows _ _ _ _ Es) as (_ & _ & Hres).
  destruct (Hres _ _ _ _ Hin) as (Hi & Hs & Hp).
  repeat split; auto.
  destruct (existsb is_call events) eqn:Ec; [reflexivity|]. exfalso.
  assert (Hno : forallb (fun e => negb (is_call e)) events = true).
  { clear - Ec. induction events as [|ev rest IH]; [reflexivity|].
    cbn in Ec |- *. apply orb_false_iff in Ec. destruct Ec as [-> Er].
    cbn. auto. }
  destruct (fullStream_text_only events w Hno) as (cs & Et & Hfold).
  rewrite Et in Es. inversion Es; subst.
  unfold collect in Ecc. rewrite Hfold in Ecc. discriminate.
Qed.

Lemma generateCourse_success_persisted_witness :
  exists w',
    generateCourse_route Sample.request
      [ev_text "Creating it."; ev_call_createCourse (Sample.args [])]
      Sample.world =
      (mkResponse 200
         (body_created Sample.created
                       (successMessage "HTTP  Caching: 101!" 0)
                       "Creating it."), w') /\
    In Sample.created (courses (db w')) /\
    status Sample.created = "published".
Proof.
  assert (E : generateCourse_route Sample.request
                [ev_text "Creating it."; ev_call_createCourse (Sample.args [])]
                Sample.world =
              (mkResponse 200
                 (body_created Sample.created
                               (successMessage "HTTP  Caching: 101!" 0)
                               "Creating it."),
               snd (generateCourse_route Sample.request
                      [ev_text "Creating it.";
                       ev_call_createCourse (Sample.args [])] Sample.world)))
    by (vm_compute; reflexivity).
  destruct (generateCourse_success_persisted _ _ _ _ _ _ _ E)
    as (Hin & Hs & _).
  eexists. split; [exact E|]. split; [exact Hin | exact Hs].
Defined.

(** X16: the route never deletes or rewrites: the user table is untouched,
    the course and lesson tables only grow at their end, and the number of
    course rows added is at most the number of times the model called the
    tool. *)
Theorem generateCourse_only_appends (r : GenerateRequest)
    (events : list ModelEvent) (w : World) :
  users (db (snd (generateCourse_route r events w))) = users (db w) /\
  exists cs ls,
    courses (db (snd (generateCourse_route r events w))) =
      courses (db w) ++ cs /\
    lessons (db (snd (generateCourse_route r events w))) =
      lessons (db w) ++ ls /\
    List.length cs <= count_calls events.
Proof.
  unfold generateCourse_route.
  destruct (generateCourseSchema_parse r) as [issues|p].
  - cbn. split; [reflexivity|]. exists [], []. rewrite !app_nil_r.
    cbn. repeat split. lia.
  - destruct (fullStream_returns events w) as (chunks & w' & Es).
    rewrite Es. cbn [snd].
    destruct (fullStream_grows _ _ _ _ Es) as (Hu & Hg & _). auto.
Qed.

(** ** The wizard *)


